(** * Backend control script: process supervisor

    A shallow embedding of [backend/server_control.py] and the proofs of its
    specification.  The script keeps one record file ([PID_FILE]) holding the
    pid of the managed server, and starts, stops, restarts and reports the
    server through the operating system's process primitives.

    The embedding is a state-and-exception monad over a [world]: the part of
    the file system the script touches, the state of the operating system
    (abstract, reached only through the primitives of the [Host] class), and
    the log of every externally visible action in the order it happened. *)

From Stdlib Require Import ZArith List String Ascii Bool Lia QArith DecimalString.
Import ListNotations.

Close Scope Q_scope.
Open Scope string_scope.
Open Scope Z_scope.

(** ** Python exceptions *)

Inductive exn_class :=
| ValueError
| UnicodeDecodeError
| OSError
| FileNotFoundError
| PermissionError
| ProcessLookupError
| OverflowError
| RuntimeError
| KeyboardInterrupt.

Record exn := mk_exn { exn_cls : exn_class; exn_msg : string }.

(** [isinstance(e, OSError)]; [IOError] is an alias of [OSError]. *)
Definition is_OSError (e : exn) : bool :=
  match exn_cls e with
  | OSError | FileNotFoundError | PermissionError | ProcessLookupError => true
  | _ => false
  end.

(** [isinstance(e, ValueError)]. *)
Definition is_ValueError (e : exn) : bool :=
  match exn_cls e with
  | ValueError | UnicodeDecodeError => true
  | _ => false
  end.

(** [isinstance(e, Exception)]: everything but [KeyboardInterrupt], which
    derives from [BaseException] only. *)
Definition is_Exception (e : exn) : bool :=
  match exn_cls e with
  | KeyboardInterrupt => false
  | _ => true
  end.

Definition is_KeyboardInterrupt (e : exn) : bool :=
  match exn_cls e with
  | KeyboardInterrupt => true
  | _ => false
  end.

Inductive result (A : Type) :=
| Ok (a : A)
| Raise (e : exn).
Arguments Ok {A} a.
Arguments Raise {A} e.

(** ** The world *)

(** The record file: whether it may be opened for reading, whether it may
    be opened for writing, whether it may be unlinked, and its content.  The
    three permissions are independent: a file of mode 0444 in a directory of
    the supervisor's is readable and removable but not writable; the file of
    another user in a sticky directory may be none of them. *)
Record file := mk_record {
  readable : bool;
  writable : bool;
  removable : bool;
  data : string
}.

(** A file of the supervisor's own. *)
Definition mk_file (r : bool) (content : string) : file :=
  mk_record r true true content.

(** The files the script looks at: [PID_FILE], its parent directory
    [data/], and [SERVER_EXECUTABLE]. *)
Record filesys := mk_fs {
  pid_file : option file;
  data_dir : bool;
  server_exe : bool
}.

(** Arguments of [subprocess.Popen]. *)
Record popen_args := mk_popen {
  command : list string;
  cwd : string;
  stdout_pipe : bool;
  stderr_pipe : bool;
  creationflags : Z
}.

(** Externally visible actions, logged in order. *)
Inductive event :=
| EPrint (s : string)
| EKill (pid sig : Z)
| ERun (args : list string)
| ESleep (d : Q)
| EPopen (a : popen_args)
| EWait (pid : Z)
| EPoll (pid : Z)
| ECommunicate (pid : Z)
| EMkdir
| EWrite (s : string)
| EUnlink.

Record world (OS : Type) := mk_world {
  fs : filesys;
  os : OS;
  log : list event
}.
Arguments mk_world {OS} fs os log.
Arguments fs {OS} w.
Arguments os {OS} w.
Arguments log {OS} w.

(** ** The host: platform, configuration and process primitives

    Every primitive may raise.  [int_strip s] is [int(s.strip())], [None]
    when it raises [ValueError]; [bytes_decode] is [bytes.decode()]. *)
Class Host (OS : Type) := {
  sys_platform : string;
  SERVER_DIR : string;
  SERVER_EXECUTABLE : string;
  LOGS_ACTIVITY : string;
  int_strip : string -> option Z;
  bytes_decode : string -> result string;
  os_kill : Z -> Z -> OS -> result unit * OS;
  subprocess_run : list string -> OS -> result unit * OS;
  time_sleep : Q -> OS -> result unit * OS;
  subprocess_Popen : popen_args -> OS -> result Z * OS;
  process_wait : Z -> OS -> result Z * OS;
  process_poll : Z -> OS -> result (option Z) * OS;
  process_communicate : Z -> OS -> result (string * string) * OS
}.

Definition SERVER_SOURCE_CMD : list string := ["go"; "run"; "./cmd/server"].

Definition SIGTERM : Z := 15.
Definition SIGKILL : Z := 9.
Definition CREATE_NEW_PROCESS_GROUP : Z := 512.

(** [str(n)] for an integer. *)
Definition str (n : Z) : string := NilZero.string_of_int (Z.to_int n).

(** [str(x)] for an optional integer, as [format] prints it. *)
Definition str_opt (x : option Z) : string :=
  match x with
  | Some n => str n
  | None => "None"
  end.

(** [s * n] for a string. *)
Fixpoint str_mul (s : string) (n : nat) : string :=
  match n with
  | O => ""
  | S k => s ++ str_mul s k
  end.

(** [bool(s)] for a string or bytes value. *)
Definition nonempty (s : string) : bool :=
  match s with
  | EmptyString => false
  | _ => true
  end.

(** ** The monad *)

Definition M (OS A : Type) : Type := world OS -> result A * world OS.

Definition ret {OS A} (a : A) : M OS A := fun w => (Ok a, w).

Definition raise {OS A} (e : exn) : M OS A := fun w => (Raise e, w).

Definition bind {OS A B} (m : M OS A) (k : A -> M OS B) : M OS B :=
  fun w =>
    match m w with
    | (Ok a, w') => k a w'
    | (Raise e, w') => (Raise e, w')
    end.

Declare Scope py_scope.
Delimit Scope py_scope with py.
Notation "x <- m ;; k" := (bind m (fun x => k))
  (at level 100, m at next level, right associativity) : py_scope.
Notation "m ;;; k" := (bind m (fun _ => k))
  (at level 100, right associativity) : py_scope.
Open Scope py_scope.

(** [try: m  except ...: h]: the handler [h] says which exceptions it
    catches. *)
Definition try_except {OS A} (m : M OS A) (h : exn -> option (M OS A)) : M OS A :=
  fun w =>
    match m w with
    | (Ok a, w') => (Ok a, w')
    | (Raise e, w') =>
        match h e with
        | Some k => k w'
        | None => (Raise e, w')
        end
    end.

(** [try: m  finally: f]. *)
Definition try_finally {OS A} (m : M OS A) (f : M OS unit) : M OS A :=
  fun w =>
    match m w with
    | (r, w') =>
        match f w' with
        | (Ok _, w'') => (r, w'')
        | (Raise e, w'') => (Raise e, w'')
        end
    end.

(** [for _ in range(n): body  else: orelse]; [body] returns [true] on
    [break]. *)
Fixpoint for_else {OS} (n : nat) (body : M OS bool) (orelse : M OS unit) : M OS unit :=
  match n with
  | O => orelse
  | S k =>
      broke <- body ;;
      if broke then ret tt else for_else k body orelse
  end.

Definition emit {OS} (ev : event) : M OS unit :=
  fun w => (Ok tt, mk_world (fs w) (os w) (log w ++ [ev])).

(** Run a primitive of the host on the operating system's state. *)
Definition call {OS A} (ev : event) (f : OS -> result A * OS) : M OS A :=
  fun w =>
    match f (os w) with
    | (r, o) => (r, mk_world (fs w) o (log w ++ [ev]))
    end.

(** [print(s)].  Writing to the console is taken to succeed and not to be
    interrupted. *)
Definition print {OS} (s : string) : M OS unit := emit (EPrint s).

(** ** File operations on [PID_FILE]

    Opening a record that is not readable raises [PermissionError]; so do
    rewriting a record that is not writable and unlinking one that is not
    removable, which leave it as it is.  Creating the record where there is
    none does not fail. *)
Section FileOps.
Context {OS : Type}.

(** [PID_FILE.exists()].  The test is taken to answer: the directories
    above the record can be searched. *)
Definition pid_file_exists : M OS bool :=
  fun w =>
    (Ok (match pid_file (fs w) with Some _ => true | None => false end), w).

(** [open(PID_FILE, 'r')] and [f.read()] *)
Definition pid_file_read : M OS string :=
  fun w =>
    match pid_file (fs w) with
    | None => (Raise (mk_exn FileNotFoundError "No such file or directory"), w)
    | Some f =>
        if readable f then (Ok (data f), w)
        else (Raise (mk_exn PermissionError "Permission denied"), w)
    end.

(** [open(PID_FILE, 'w')] and [f.write(s)]: a new file is the supervisor's
    own, an overwritten one keeps its permissions. *)
Definition pid_file_write (s : string) : M OS unit :=
  fun w =>
    match pid_file (fs w) with
    | Some f =>
        if writable f
        then (Ok tt,
              mk_world (mk_fs (Some (mk_record (readable f) true (removable f) s))
                              (data_dir (fs w)) (server_exe (fs w)))
                       (os w) (log w ++ [EWrite s]))
        else (Raise (mk_exn PermissionError "Permission denied"),
              mk_world (fs w) (os w) (log w ++ [EWrite s]))
    | None =>
        (Ok tt,
         mk_world (mk_fs (Some (mk_file true s))
                         (data_dir (fs w)) (server_exe (fs w)))
                  (os w) (log w ++ [EWrite s]))
    end.

(** [PID_FILE.unlink(missing_ok=...)] *)
Definition pid_file_unlink (missing_ok : bool) : M OS unit :=
  fun w =>
    match pid_file (fs w) with
    | Some f =>
        if removable f
        then (Ok tt,
              mk_world (mk_fs None (data_dir (fs w)) (server_exe (fs w)))
                       (os w) (log w ++ [EUnlink]))
        else (Raise (mk_exn PermissionError "Permission denied"),
              mk_world (fs w) (os w) (log w ++ [EUnlink]))
    | None =>
        if missing_ok then (Ok tt, mk_world (fs w) (os w) (log w ++ [EUnlink]))
        else (Raise (mk_exn FileNotFoundError "No such file or directory"),
              mk_world (fs w) (os w) (log w ++ [EUnlink]))
    end.

(** The record can be written: there is none, or the one there is
    writable. *)
Definition can_write (F : filesys) : bool :=
  match pid_file F with
  | Some f => writable f
  | None => true
  end.

(** The record can be unlinked, if there is one. *)
Definition can_unlink (F : filesys) : bool :=
  match pid_file F with
  | Some f => removable f
  | None => true
  end.


(** [PID_FILE.parent.mkdir(parents=True, exist_ok=True)] *)
Definition data_dir_mkdir : M OS unit :=
  fun w =>
    (Ok tt,
     mk_world (mk_fs (pid_file (fs w)) true (server_exe (fs w)))
              (os w) (log w ++ [EMkdir])).

(** [SERVER_EXECUTABLE.exists()] *)
Definition server_executable_exists : M OS bool :=
  fun w => (Ok (server_exe (fs w)), w).
End FileOps.

(** ** The script *)
Section Script.
Context {OS : Type} `{H : Host OS}.

Definition win32 : bool := String.eqb sys_platform "win32".

(** [int(f.read().strip())] *)
Definition py_int (s : string) : M OS Z :=
  match int_strip s with
  | Some n => ret n
  | None => raise (mk_exn ValueError "invalid literal for int() with base 10")
  end.

Definition kill (pid sig : Z) : M OS unit :=
  call (EKill pid sig) (os_kill pid sig).

Definition run (args : list string) : M OS unit :=
  call (ERun args) (subprocess_run args).

Definition sleep (d : Q) : M OS unit :=
  call (ESleep d) (time_sleep d).

Definition Popen (a : popen_args) : M OS Z :=
  call (EPopen a) (subprocess_Popen a).

Definition wait (pid : Z) : M OS Z :=
  call (EWait pid) (process_wait pid).

Definition poll (pid : Z) : M OS (option Z) :=
  call (EPoll pid) (process_poll pid).

Definition communicate (pid : Z) : M OS (string * string) :=
  call (ECommunicate pid) (process_communicate pid).

Definition decode (b : string) : M OS string :=
  match bytes_decode b with
  | Ok s => ret s
  | Raise e => raise e
  end.

Definition get_server_pid : M OS (option Z) :=
  present <- pid_file_exists ;;
  if negb present then ret None
  else
    try_except
      (s <- pid_file_read ;;
       pid <- py_int s ;;
       try_except
         (kill pid 0 ;;; ret (Some pid))
         (fun e =>
            if is_OSError e
            then Some (pid_file_unlink false ;;; ret None)
            else None))
      (fun e =>
         if is_ValueError e || is_OSError e then Some (ret None) else None).

Definition is_server_running : M OS bool :=
  pid <- get_server_pid ;;
  ret (match pid with Some _ => true | None => false end).

(** The termination request of [stop_server]: [taskkill /F] on Windows,
    [os.kill(pid, sig)] elsewhere. *)
Definition terminate (pid sig : Z) : M OS unit :=
  if win32 then run ["taskkill"; "/F"; "/PID"; str pid]
  else kill pid sig.

(** The body of the polling loop; [true] is [break]. *)
Definition poll_absent (pid : Z) : M OS bool :=
  sleep (1 # 2) ;;;
  try_except
    (kill pid 0 ;;; ret false)
    (fun e => if is_OSError e then Some (ret true) else None).

(** The [else] clause of the polling loop. *)
Definition force (pid : Z) : M OS unit :=
  print "   Server didn't stop gracefully, forcing..." ;;;
  terminate pid SIGKILL.

(** The [try] block of [stop_server]. *)
Definition escalate (pid : Z) : M OS bool :=
  terminate pid SIGTERM ;;;
  for_else 10 (poll_absent pid) (force pid) ;;;
  pid_file_unlink true ;;;
  print "Server stopped successfully" ;;;
  ret true.

Definition stop_server : M OS bool :=
  pid <- get_server_pid ;;
  match pid with
  | None =>
      print "WARNING: Server is not running" ;;;
      ret false
  | Some pid =>
      print ("Stopping server (PID: " ++ str pid ++ ")...") ;;;
      try_except
        (escalate pid)
        (fun e =>
           if is_Exception e
           then Some (print ("ERROR: Failed to stop server: " ++ exn_msg e) ;;;
                      ret false)
           else None)
  end.

Definition launch_command (use_go : bool) : list string :=
  if use_go then SERVER_SOURCE_CMD else [SERVER_EXECUTABLE].

Definition launch_flags : Z :=
  if win32 then CREATE_NEW_PROCESS_GROUP else 0.

(** The inner [try] of the foreground launch: wait for the child, stop it
    on Ctrl+C, and remove the record in any case. *)
Definition guarded_wait (pid : Z) : M OS unit :=
  try_finally
    (try_except
       (wait pid ;;; ret tt)
       (fun e =>
          if is_KeyboardInterrupt e
          then Some (print (String "010" (String "010" "Stopping server...")) ;;;
                     stop_server ;;; ret tt)
          else None))
    (pid_file_unlink true).

Definition start_foreground (use_go : bool) : M OS bool :=
  print "   Running in foreground mode (press Ctrl+C to stop)..." ;;;
  print (str_mul "-" 60) ;;;
  pid <- Popen (mk_popen (launch_command use_go) SERVER_DIR false false launch_flags) ;;
  pid_file_write (str pid) ;;;
  guarded_wait pid ;;;
  ret true.

Definition start_background (use_go : bool) : M OS bool :=
  pid <- Popen (mk_popen (launch_command use_go) SERVER_DIR true true launch_flags) ;;
  pid_file_write (str pid) ;;;
  sleep 2 ;;;
  code <- poll pid ;;
  match code with
  | None =>
      print ("Server started successfully ("
             ++ (if use_go then "source" else "executable")
             ++ ", PID: " ++ str pid ++ ")") ;;;
      print "   Backend running at: http://localhost:8080" ;;;
      print "   View logs with: python server_control.py logs" ;;;
      ret true
  | Some _ =>
      out <- communicate pid ;;
      print "ERROR: Server failed to start" ;;;
      (if nonempty (snd out)
       then (s <- decode (snd out) ;; print ("   Error: " ++ s))
       else ret tt) ;;;
      pid_file_unlink true ;;;
      ret false
  end.

Definition start_server (foreground use_go : bool) : M OS bool :=
  running <- is_server_running ;;
  if running then
    pid <- get_server_pid ;;
    print ("ERROR: Server is already running (PID: " ++ str_opt pid ++ ")") ;;;
    ret false
  else
    missing <- (if negb use_go
                then (present <- server_executable_exists ;; ret (negb present))
                else ret false) ;;
    if missing then
      print ("ERROR: Server executable not found: " ++ SERVER_EXECUTABLE) ;;;
      print "   Please build the server first with: make build" ;;;
      print "   Or start from source with: python server_control.py start --go" ;;;
      ret false
    else
      print "Starting Hytale Server Manager backend..." ;;;
      data_dir_mkdir ;;;
      try_except
        (if foreground then start_foreground use_go
         else start_background use_go)
        (fun e =>
           if is_Exception e
           then Some (print ("ERROR: Failed to start server: " ++ exn_msg e) ;;;
                      pid_file_unlink true ;;;
                      ret false)
           else None).

Definition status_server : M OS unit :=
  pid <- get_server_pid ;;
  match pid with
  | None =>
      print "Server Status: STOPPED" ;;;
      print "   Backend: http://localhost:8080 (not running)"
  | Some pid =>
      print "Server Status: RUNNING" ;;;
      print ("   PID: " ++ str pid) ;;;
      print "   Backend: http://localhost:8080" ;;;
      print ("   Logs: " ++ LOGS_ACTIVITY)
  end.

Definition restart_server : M OS unit :=
  print "Restarting server..." ;;;
  stop_server ;;;
  sleep 1 ;;;
  start_server false false ;;;
  ret tt.
End Script.

(** ** A simulated host

    A small executable operating system, used to run the script on concrete
    scenarios: a table of live processes, some of which ignore [SIGTERM]
    ([deaf]) or may not be signalled ([guarded]). *)
Module Sim.

Record sim := mk_sim {
  alive : list Z;
  deaf : list Z;
  guarded : list Z;
  spawn : result Z;
  crash : bool;
  child_stderr : string;
  ctrl_c : bool
}.

Definition mem (p : Z) (l : list Z) : bool := existsb (Z.eqb p) l.

Definition remove (p : Z) (l : list Z) : list Z :=
  filter (fun q => negb (Z.eqb p q)) l.

Definition set_alive (l : list Z) (s : sim) : sim :=
  mk_sim l (deaf s) (guarded s) (spawn s) (crash s) (child_stderr s) (ctrl_c s).

Definition sim_kill (pid sig : Z) (s : sim) : result unit * sim :=
  if negb (mem pid (alive s))
  then (Raise (mk_exn ProcessLookupError "No such process"), s)
  else if sig =? 0 then (Ok tt, s)
  else if mem pid (guarded s)
  then (Raise (mk_exn PermissionError "Operation not permitted"), s)
  else if (sig =? SIGTERM) && mem pid (deaf s) then (Ok tt, s)
  else (Ok tt, set_alive (remove pid (alive s)) s).

(** [taskkill /F /PID p]; the exit status is not checked. *)
Definition sim_run (args : list string) (s : sim) : result unit * sim :=
  match args with
  | [_; _; _; p] =>
      (Ok tt,
       set_alive (filter (fun q => negb (String.eqb (str q) p
                                         && negb (mem q (guarded s))))
                         (alive s)) s)
  | _ => (Ok tt, s)
  end.

Definition sim_sleep (d : Q) (s : sim) : result unit * sim := (Ok tt, s).

Definition sim_Popen (a : popen_args) (s : sim) : result Z * sim :=
  match spawn s with
  | Ok p => (Ok p, if crash s then s else set_alive (p :: alive s) s)
  | Raise e => (Raise e, s)
  end.

Definition sim_wait (pid : Z) (s : sim) : result Z * sim :=
  if ctrl_c s
  then (Raise (mk_exn KeyboardInterrupt ""),
        mk_sim (alive s) (deaf s) (guarded s) (spawn s) (crash s)
               (child_stderr s) false)
  else (Ok 0, set_alive (remove pid (alive s)) s).

Definition sim_poll (pid : Z) (s : sim) : result (option Z) * sim :=
  (Ok (if mem pid (alive s) then None else Some 1), s).

Definition sim_communicate (pid : Z) (s : sim) : result (string * string) * sim :=
  (Ok ("", child_stderr s), s).

Definition is_space (c : ascii) : bool :=
  match c with
  | " "%char | "009"%char | "010"%char | "011"%char | "012"%char | "013"%char => true
  | _ => false
  end.

Fixpoint lstrip (s : string) : string :=
  match s with
  | String c r => if is_space c then lstrip r else s
  | EmptyString => EmptyString
  end.

Fixpoint rstrip (s : string) : string :=
  match s with
  | String c r =>
      match rstrip r with
      | EmptyString => if is_space c then EmptyString else String c EmptyString
      | r' => String c r'
      end
  | EmptyString => EmptyString
  end.

(** Decimal integers with an optional sign, surrounded by blanks. *)
Definition sim_int (s : string) : option Z :=
  option_map Z.of_int (NilZero.int_of_string (rstrip (lstrip s))).

#[export] Instance host (platform : string) : Host sim := {|
  sys_platform := platform;
  SERVER_DIR := "backend";
  SERVER_EXECUTABLE := "backend/bin/server.exe";
  LOGS_ACTIVITY := "backend/logs/activity";
  int_strip := sim_int;
  bytes_decode := Ok;
  os_kill := sim_kill;
  subprocess_run := sim_run;
  time_sleep := sim_sleep;
  subprocess_Popen := sim_Popen;
  process_wait := sim_wait;
  process_poll := sim_poll;
  process_communicate := sim_communicate
|}.

Definition linux : Host sim := host "linux".
Definition windows : Host sim := host "win32".

(** A quiet machine: the given processes live, the next spawn yields pid
    4242. *)
Definition machine (procs : list Z) : sim :=
  mk_sim procs [] [] (Ok 4242) false "" false.

(** A world with the given record file, the executable built. *)
Definition boot (record : option file) (s : sim) : world sim :=
  mk_world (mk_fs record true true) s [].

Definition record_of (content : string) : option file :=
  Some (mk_file true content).

(** Scenarios. *)

(** No record, no process. *)
Definition fresh : world sim := boot None (machine []).

(** The record names process 77, which lives. *)
Definition running : world sim := boot (record_of "77") (machine [77]).

(** The record names a process that does not exist. *)
Definition stale_record : world sim := boot (record_of "999999999") (machine []).

(** The record is there but may not be read. *)
Definition locked_record : world sim :=
  boot (Some (mk_file false "77")) (machine [77]).

(** Process 77 lives but may not be signalled. *)
Definition protected : world sim :=
  boot (record_of "77") (mk_sim [77] [] [77] (Ok 4242) false "" false).

(** Process 77 ignores [SIGTERM]. *)
Definition stubborn : world sim :=
  boot (record_of "77") (mk_sim [77] [77] [] (Ok 4242) false "" false).

(** The record holds -1, and signalling -1 works. *)
Definition minus_one : world sim := boot (record_of "-1") (machine [-1]).



(** A stale record in a directory the supervisor may not change: the
    record can be read and rewritten, not unlinked. *)
Definition pinned_stale : world sim :=
  boot (Some (mk_record true true false "999999999")) (machine []).



End Sim.

(** ** A host on which processes exit by themselves

    The state carries a fuse: the number of signals and probes that the
    live processes still answer; once it is spent they have all exited. *)
Module SimRace.
Import Sim.

Definition racy : Type := (sim * nat)%type.

Definition lift {A} (f : sim -> result A * sim) : racy -> result A * racy :=
  fun st =>
    match f (fst st) with
    | (r, s) => (r, (s, snd st))
    end.

Definition kill_racy (pid sig : Z) : racy -> result unit * racy :=
  fun st =>
    match snd st with
    | O => match sim_kill pid sig (set_alive [] (fst st)) with
           | (r, s) => (r, (s, O))
           end
    | S k => match sim_kill pid sig (fst st) with
             | (r, s) => (r, (s, k))
             end
    end.

#[export] Instance racing : Host racy := {|
  sys_platform := "linux";
  SERVER_DIR := "backend";
  SERVER_EXECUTABLE := "backend/bin/server.exe";
  LOGS_ACTIVITY := "backend/logs/activity";
  int_strip := sim_int;
  bytes_decode := Ok;
  os_kill := kill_racy;
  subprocess_run := fun args => lift (sim_run args);
  time_sleep := fun d => lift (sim_sleep d);
  subprocess_Popen := fun a => lift (sim_Popen a);
  process_wait := fun p => lift (sim_wait p);
  process_poll := fun p => lift (sim_poll p);
  process_communicate := fun p => lift (sim_communicate p)
|}.

(** The record names process 77, which answers one probe and then exits. *)
Definition dying : world racy :=
  mk_world (mk_fs (record_of "77") true true) (machine [77], 1%nat) [].

End SimRace.


(** ** Logs

    What a computation adds to the log: [emits P m] says that [m] only
    appends to the log, and that every event it appends satisfies [P]. *)
Definition emits {OS A} (P : event -> Prop) (m : M OS A) : Prop :=
  forall w, exists d, log (snd (m w)) = (log w ++ d)%list /\ Forall P d.

Definition any_event (ev : event) : Prop := True.

(** [stop_server] prints, signals, runs [taskkill], sleeps and unlinks;
    it does nothing else. *)
Definition stop_event (ev : event) : Prop :=
  match ev with
  | EPrint _ | EKill _ _ | ERun _ | ESleep _ | EUnlink => True
  | _ => False
  end.

(** [begins l m]: the first events that [m] appends to the log are [l]. *)
Definition begins {OS A} (l : list event) (m : M OS A) : Prop :=
  forall w, exists d, log (snd (m w)) = (log w ++ l ++ d)%list.

(** [keeps_fs m]: [m] leaves the file system as it found it. *)
Definition keeps_fs {OS A} (m : M OS A) : Prop :=
  forall w, fs (snd (m w)) = fs w.

(** ** The escalation, seen from the operating system *)
Section Escalation.
Context {OS : Type} `{H : Host OS}.

(** The primitive behind [terminate] and the event it logs. *)
Definition request (pid sig : Z) : OS -> result unit * OS :=
  if win32 then subprocess_run ["taskkill"; "/F"; "/PID"; str pid]
  else os_kill pid sig.

Definition request_event (pid sig : Z) : event :=
  if win32 then ERun ["taskkill"; "/F"; "/PID"; str pid]
  else EKill pid sig.

(** [polled pid n o k gone o']: from the state [o], a polling loop with [n]
    attempts left sleeps and probes [k] times and ends in [o']; [gone] tells
    whether the last probe found the process absent (the probe raised an
    [OSError]) or the attempts ran out with the process present at each. *)
Inductive polled (pid : Z) : nat -> OS -> nat -> bool -> OS -> Prop :=
| polled_out (o : OS) :
    polled pid 0 o 0 false o
| polled_gone (n : nat) (o o1 o2 : OS) (e : exn) :
    time_sleep (1 # 2) o = (Ok tt, o1) ->
    os_kill pid 0 o1 = (Raise e, o2) ->
    is_OSError e = true ->
    polled pid (S n) o 1 true o2
| polled_more (n : nat) (o o1 o2 : OS) (k : nat) (gone : bool) (o3 : OS) :
    time_sleep (1 # 2) o = (Ok tt, o1) ->
    os_kill pid 0 o1 = (Ok tt, o2) ->
    polled pid n o2 k gone o3 ->
    polled pid (S n) o (S k) gone o3.

(** [still_there pid k o o']: from [o], [k] rounds of sleeping and probing
    that all find the process present end in [o']. *)
Inductive still_there (pid : Z) : nat -> OS -> OS -> Prop :=
| still_there_O (o : OS) :
    still_there pid 0 o o
| still_there_S (k : nat) (o o1 o2 o3 : OS) :
    time_sleep (1 # 2) o = (Ok tt, o1) ->
    os_kill pid 0 o1 = (Ok tt, o2) ->
    still_there pid k o2 o3 ->
    still_there pid (S k) o o3.

(** The events of [k] rounds of polling. *)
Fixpoint polls (pid : Z) (k : nat) : list event :=
  match k with
  | O => []
  | S k' => ESleep (1 # 2) :: EKill pid 0 :: polls pid k'
  end.

(** The events between the last poll and the clean-up: the forced request,
    when the process was never found absent. *)
Definition stop_tail (pid : Z) (gone : bool) : list event :=
  if gone then [] else [EPrint "   Server didn't stop gracefully, forcing...";
                        request_event pid SIGKILL].

(** Requests and clean-up. *)
Definition graceful_request (ev : event) : Prop :=
  match ev with
  | EKill _ sig => sig = SIGTERM
  | _ => False
  end.

Definition forced_request (ev : event) : Prop :=
  match ev with
  | EKill _ sig => sig = SIGKILL
  | ERun args => In "/F" args
  | _ => False
  end.

(** Events that neither signal, probe nor wait. *)
Definition quiet (ev : event) : Prop :=
  match ev with
  | EPrint _ | EUnlink => True
  | _ => False
  end.

(** A termination request of the escalation raises [e]: the first one, or
    the forced one after ten polls that all found the process present. *)
Inductive request_fails (pid : Z) (o : OS) (e : exn) : OS -> Prop :=
| first_fails (o' : OS) :
    request pid SIGTERM o = (Raise e, o') ->
    request_fails pid o e o'
| forced_fails (o1 o2 o' : OS) :
    request pid SIGTERM o = (Ok tt, o1) ->
    polled pid 10 o1 10 false o2 ->
    request pid SIGKILL o2 = (Raise e, o') ->
    request_fails pid o e o'.

End Escalation.

(** ** States of the record *)
Section RecordStates.
Context {OS : Type} `{H : Host OS}.

(** The record gives no pid to probe: there is no record file, or it cannot
    be read, or its content is not an integer. *)
Inductive no_pid (w : world OS) : Prop :=
| no_record :
    pid_file (fs w) = None -> no_pid w
| unreadable_record (f : file) :
    pid_file (fs w) = Some f -> readable f = false -> no_pid w
| unparsable_record (f : file) :
    pid_file (fs w) = Some f -> readable f = true ->
    int_strip (data f) = None -> no_pid w.

(** The record holds the pid [n], and the probe finds no such process,
    leaving the operating system in [o]. *)
Inductive stale (w : world OS) (n : Z) (o : OS) : Prop :=
| stale_record_intro (f : file) (e : exn) :
    pid_file (fs w) = Some f -> readable f = true ->
    int_strip (data f) = Some n ->
    os_kill n 0 (os w) = (Raise e, o) -> is_OSError e = true ->
    stale w n o.

(** The record holds the pid [n] of a live process: the probe succeeds. *)
Inductive live (w : world OS) (n : Z) (o : OS) : Prop :=
| live_record (f : file) :
    pid_file (fs w) = Some f -> readable f = true ->
    int_strip (data f) = Some n ->
    os_kill n 0 (os w) = (Ok tt, o) ->
    live w n o.

End RecordStates.

(** ** Launch modes *)
Section LaunchModes.
Context {OS : Type} `{H : Host OS}.


Definition is_spawn (ev : event) : Prop :=
  match ev with
  | EPopen _ => True
  | _ => False
  end.

End LaunchModes.

(** ** The log viewer

    [view_logs] looks into [SERVER_DIR/logs/activity].  The directory is
    read through three more primitives of the host, each of which may raise:
    [logs_dir.exists()], [list(logs_dir.glob("*.log"))] and
    [p.stat().st_mtime].  They only look at the operating system. *)

(** A path in the log directory: [str(p)] and [p.name]. *)
Record log_path := mk_log_path { path_str : string; path_name : string }.

Class LogDir (OS : Type) := {
  logs_dir_exists : OS -> result bool;
  logs_dir_glob : OS -> result (list log_path);
  path_mtime : log_path -> OS -> result Q
}.

(** A read of the operating system's state. *)
Definition observe {OS A} (f : OS -> result A) : M OS A :=
  fun w => (f (os w), w).

Section Viewer.
Context {OS : Type} `{H : Host OS} `{D : LogDir OS}.

(** [a > b] on modification times. *)
Definition newer (a b : Q) : bool := negb (Qle_bool a b).

(** The loop of [max(..., key=...)]: the item kept so far and its key; a
    later item replaces it only when its key is strictly greater. *)
Fixpoint max_scan (best : log_path) (best_key : Q) (rest : list log_path)
  : M OS log_path :=
  match rest with
  | [] => ret best
  | p :: rest' =>
      key <- observe (path_mtime p) ;;
      if newer key best_key then max_scan p key rest'
      else max_scan best best_key rest'
  end.

(** [max(log_files, key=lambda p: p.stat().st_mtime)] *)
Definition latest (log_files : list log_path) : M OS log_path :=
  match log_files with
  | [] => raise (mk_exn ValueError "max() arg is an empty sequence")
  | p :: rest =>
      key <- observe (path_mtime p) ;;
      max_scan p key rest
  end.

Definition quote : string := String "034" EmptyString.

Definition tail_command (p : log_path) : list string :=
  ["powershell"; "-Command";
   "Get-Content " ++ quote ++ path_str p ++ quote ++ " -Tail 50 -Wait"].

(** The [try] block of [view_logs]. *)
Definition show_logs (pid : option Z) : M OS unit :=
  if win32 then
    present <- observe logs_dir_exists ;;
    log_files <- (if present then observe logs_dir_glob else ret []) ;;
    match log_files with
    | _ :: _ =>
        latest_log <- latest log_files ;;
        print ("Tailing: " ++ path_name latest_log ++ String "010" "") ;;;
        run (tail_command latest_log)
    | [] =>
        print "WARNING: No log files found. Server is logging to stdout." ;;;
        print "   Server running at: http://localhost:8080" ;;;
        print ("   PID: " ++ str_opt pid) ;;;
        print (String "010" "Tip: Restart server in foreground mode to see console:") ;;;
        print "   python server_control.py stop" ;;;
        print "   python server_control.py start --foreground"
    end
  else
    print "WARNING: Background process output not available" ;;;
    print "   Server running at: http://localhost:8080" ;;;
    print (String "010" "Tip: Restart server in foreground mode to see console:") ;;;
    print "   python server_control.py stop" ;;;
    print "   python server_control.py start --foreground".

Definition view_logs : M OS bool :=
  running <- is_server_running ;;
  if negb running then
    print "WARNING: Server is not running" ;;;
    print "   Start it with: python server_control.py start" ;;;
    ret false
  else
    pid <- get_server_pid ;;
    print ("Viewing server console output (PID: " ++ str_opt pid ++ ")") ;;;
    print "   Press Ctrl+C to stop viewing" ;;;
    print (str_mul "-" 60) ;;;
    try_except
      (show_logs pid)
      (fun e =>
         if is_KeyboardInterrupt e
         then Some (print (String "010" (String "010" "Stopped viewing logs")))
         else if is_Exception e
         then Some (print ("ERROR: Error viewing logs: " ++ exn_msg e))
         else None) ;;;
    ret true.

End Viewer.

(** ** The command line *)

(** [s.lower()] on ASCII text. *)
Definition lower_ascii (c : ascii) : ascii :=
  let n := nat_of_ascii c in
  if ((65 <=? n) && (n <=? 90))%nat then ascii_of_nat (n + 32) else c.

Fixpoint lower (s : string) : string :=
  match s with
  | EmptyString => EmptyString
  | String c r => String (lower_ascii c) (lower r)
  end.

(** [s.isascii()]: on such strings [lower] is Python's [str.lower]. *)
Fixpoint isascii (s : string) : bool :=
  match s with
  | EmptyString => true
  | String c r => (nat_of_ascii c <? 128)%nat && isascii r
  end.

(** [s in l] *)
Definition str_in (s : string) (l : list string) : bool :=
  existsb (String.eqb s) l.

Definition FOREGROUND_FLAGS : list string := ["--foreground"; "-f"; "foreground"].
Definition GO_FLAGS : list string := ["--go"; "-g"; "go"; "--source"].

(** The loop over [sys.argv[2:]]: the pair is [(foreground, use_go)]. *)
Definition scan_flags (flags : list string) : bool * bool :=
  fold_left
    (fun acc flag =>
       let flag := lower flag in
       (if str_in flag FOREGROUND_FLAGS then true else fst acc,
        if str_in flag GO_FLAGS then true else snd acc))
    flags (false, false).

Fixpoint unlines (l : list string) : string :=
  match l with
  | [] => ""
  | [s] => s
  | s :: r => s ++ String "010" (unlines r)
  end.

Definition HELP_TEXT : string :=
  unlines
    [""; "Hytale Server Manager - Backend Control Script";
     "";
     "Usage:";
     "    python server_control.py [command] [options]";
     "";
     "Commands:";
     "    start              - Start the backend server in background";
     "    start --foreground - Start the server with visible console output";
     "    start -f           - Same as --foreground";
     "    start --go          - Start the server from source (go run)";
     "    start -g            - Same as --go";
     "    start --go -f       - Start from source with visible console output";
     "    stop               - Stop the backend server";
     "    restart            - Restart the backend server";
     "    status             - Check server status";
     "    logs               - View server console output (if available)";
     "    console            - Same as logs";
     "    help               - Show this help message";
     "";
     "Default Admin Credentials:";
     "    Username: admin";
     "    Password: (set when creating admin user)";
     "";
     "Examples:";
     "    python server_control.py start";
     "    python server_control.py start --foreground";
     "    python server_control.py start --go --foreground";
     "    python server_control.py logs";
     "    python server_control.py stop";
     "    python server_control.py status";
     ""].

Definition show_help {OS} : M OS unit := print HELP_TEXT.

(** Lookup in a dictionary with string keys. *)
Fixpoint dict_get {A} (key : string) (d : list (string * A)) : option A :=
  match d with
  | [] => None
  | (k, v) :: r => if String.eqb key k then Some v else dict_get key r
  end.

Section CommandLine.
Context {OS : Type} `{H : Host OS} `{D : LogDir OS}.

(** The [commands] dictionary; the value of a call is dropped. *)
Definition commands (foreground use_go : bool) : list (string * M OS unit) :=
  [("start", start_server foreground use_go ;;; ret tt);
   ("stop", stop_server ;;; ret tt);
   ("restart", restart_server);
   ("status", status_server);
   ("logs", view_logs ;;; ret tt);
   ("console", view_logs ;;; ret tt);
   ("help", show_help);
   ("--help", show_help);
   ("-h", show_help)].

(** [main()], with [sys.argv] as its argument.  The result is [None] when
    [main] returns and [Some code] when it leaves through [sys.exit(code)]. *)
Definition main (argv : list string) : M OS (option Z) :=
  let command :=
    if (List.length argv <? 2)%nat then "status" else lower (nth 1 argv "") in
  let flags :=
    if String.eqb command "start" && (2 <? List.length argv)%nat
    then scan_flags (skipn 2 argv)
    else (false, false) in
  match dict_get command (commands (fst flags) (snd flags)) with
  | Some f => f ;;; ret None
  | None =>
      print ("ERROR: Unknown command: " ++ command) ;;;
      print "   Use 'python server_control.py help' for usage information" ;;;
      ret (Some 1)
  end.

End CommandLine.

(** A log directory for the simulated host: the files with their
    modification times, or [None] when the directory does not exist. *)
Module SimLogs.

Definition mtime_of (files : list (log_path * Q)) (p : log_path) : result Q :=
  match find (fun e => String.eqb (path_str (fst e)) (path_str p)) files with
  | Some e => Ok (snd e)
  | None => Raise (mk_exn FileNotFoundError "No such file or directory")
  end.

#[export] Instance logdir (dir : option (list (log_path * Q))) : LogDir Sim.sim := {|
  logs_dir_exists := fun _ => Ok (match dir with Some _ => true | None => false end);
  logs_dir_glob := fun _ => Ok (match dir with Some l => map fst l | None => [] end);
  path_mtime := fun p _ => match dir with
                           | Some l => mtime_of l p
                           | None => Raise (mk_exn FileNotFoundError
                                              "No such file or directory")
                           end
|}.

Definition log_a : log_path := mk_log_path "logs/activity/a.log" "a.log".
Definition log_b : log_path := mk_log_path "logs/activity/b.log" "b.log".
Definition log_c : log_path := mk_log_path "logs/activity/c.log" "c.log".

(** Three log files; [b.log] and [c.log] share the latest time. *)
Definition three_logs : LogDir Sim.sim :=
  logdir (Some [(log_a, (10 # 1)%Q); (log_b, (25 # 1)%Q); (log_c, (25 # 1)%Q)]).

Definition no_logs : LogDir Sim.sim := logdir None.

End SimLogs.

(** ** Frames and event classes for the whole script *)

(** [F'] is [F] with the record possibly removed: nothing was created or
    rewritten. *)
Definition fs_le (F' F : filesys) : Prop :=
  data_dir F' = data_dir F /\ server_exe F' = server_exe F /\
  (pid_file F' = pid_file F \/ pid_file F' = None).

(** [only_clears m]: all [m] ever does to the file system is remove the
    record. *)
Definition only_clears {OS A} (m : M OS A) : Prop :=
  forall w, fs_le (fs (snd (m w))) (fs w).

(** The events of a read of the record: the probe with signal 0 and the
    removal of a stale record. *)
Definition probe_event (ev : event) : Prop :=
  match ev with
  | EKill _ sig => sig = 0
  | EUnlink => True
  | _ => False
  end.

(** The events of a status report. *)
Definition status_event (ev : event) : Prop :=
  match ev with
  | EPrint _ | EUnlink => True
  | EKill _ sig => sig = 0
  | _ => False
  end.

Section EventClasses.
Context {OS : Type} `{H : Host OS}.

(** The events of [start_server foreground use_go]: one kind of spawn; a
    wait, signals and [taskkill] only in the foreground; the poll and the
    read of the pipes only in the background. *)
Definition launch_event (foreground use_go : bool) (ev : event) : Prop :=
  match ev with
  | EPopen a =>
      a = mk_popen (launch_command use_go) SERVER_DIR
            (negb foreground) (negb foreground) launch_flags
  | EWait _ | ERun _ => foreground = true
  | EKill _ sig => sig = 0 \/ foreground = true
  | EPoll _ | ECommunicate _ => foreground = false
  | _ => True
  end.

(** The events of [view_logs]: prints, reads of the record, and on Windows
    the tail of one log file. *)
Definition viewer_event (ev : event) : Prop :=
  match ev with
  | EPrint _ | EUnlink => True
  | EKill _ sig => sig = 0
  | ERun args => win32 = true /\ exists p, args = tail_command p
  | _ => False
  end.

End EventClasses.

(** The keys of the [commands] dictionary. *)
Definition KNOWN_COMMANDS : list string :=
  ["start"; "stop"; "restart"; "status"; "logs"; "console";
   "help"; "--help"; "-h"].

Definition is_foreground_flag (flag : string) : bool :=
  str_in (lower flag) FOREGROUND_FLAGS.

Definition is_go_flag (flag : string) : bool :=
  str_in (lower flag) GO_FLAGS.

(** A stricter simulated host: [os.kill] refuses a pid that does not fit a
    C [int] with [OverflowError], and a pending Ctrl+C interrupts the next
    sleep. *)
Module SimX.
Import Sim.

Definition kill_checked (pid sig : Z) (s : sim) : result unit * sim :=
  if (pid <? - 2 ^ 31) || (2 ^ 31 - 1 <? pid)
  then (Raise (mk_exn OverflowError "signed integer is greater than maximum"), s)
  else sim_kill pid sig s.

Definition sleep_interruptible (d : Q) (s : sim) : result unit * sim :=
  if ctrl_c s
  then (Raise (mk_exn KeyboardInterrupt ""),
        mk_sim (alive s) (deaf s) (guarded s) (spawn s) (crash s)
               (child_stderr s) false)
  else (Ok tt, s).

#[export] Instance strict : Host sim := {|
  sys_platform := "linux";
  SERVER_DIR := "backend";
  SERVER_EXECUTABLE := "backend/bin/server.exe";
  LOGS_ACTIVITY := "backend/logs/activity";
  int_strip := sim_int;
  bytes_decode := Ok;
  os_kill := kill_checked;
  subprocess_run := sim_run;
  time_sleep := sleep_interruptible;
  subprocess_Popen := sim_Popen;
  process_wait := sim_wait;
  process_poll := sim_poll;
  process_communicate := sim_communicate
|}.

(** The record holds a number no process id can be. *)
Definition huge_record : world sim :=
  boot (record_of "99999999999") (machine []).

(** Process 77 ignores [SIGTERM], and the user presses Ctrl+C. *)
Definition stubborn_impatient : world sim :=
  boot (record_of "77") (mk_sim [77] [77] [] (Ok 4242) false "" true).

(** The executable has not been built. *)
Definition unbuilt : world sim :=
  mk_world (mk_fs None true false) (machine []) [].

End SimX.

(** The modification times of the three simulated log files. *)
Definition three_logs_time (p : log_path) : Q :=
  match SimLogs.mtime_of
          [(SimLogs.log_a, (10 # 1)%Q); (SimLogs.log_b, (25 # 1)%Q);
           (SimLogs.log_c, (25 # 1)%Q)] p with
  | Ok q => q
  | Raise _ => 0%Q
  end.

Open Scope list_scope.

(** ** Reading the record *)
Section Registry.
Context {OS : Type} `{H : Host OS}.

(** The five ways a read of the record ends. *)
Lemma get_server_pid_absent (w : world OS) :
  pid_file (fs w) = None ->
  get_server_pid w = (Ok None, w).
Proof.
  intros Hf. unfold get_server_pid, bind, pid_file_exists.
  rewrite Hf. reflexivity.
Qed.

Lemma get_server_pid_unreadable (w : world OS) (f : file) :
  pid_file (fs w) = Some f ->
  readable f = false ->
  get_server_pid w = (Ok None, w).
Proof.
  intros Hf Hr.
  unfold get_server_pid, bind, pid_file_exists, try_except, pid_file_read.
  rewrite Hf. cbn. rewrite Hf, Hr. reflexivity.
Qed.

Lemma get_server_pid_unparsable (w : world OS) (f : file) :
  pid_file (fs w) = Some f ->
  readable f = true ->
  int_strip (data f) = None ->
  get_server_pid w = (Ok None, w).
Proof.
  intros Hf Hr Hp.
  unfold get_server_pid, bind, pid_file_exists, try_except, pid_file_read, py_int.
  rewrite Hf. cbn. rewrite Hf, Hr, Hp. reflexivity.
Qed.

Lemma get_server_pid_live (w : world OS) (f : file) (n : Z) (o : OS) :
  pid_file (fs w) = Some f ->
  readable f = true ->
  int_strip (data f) = Some n ->
  os_kill n 0 (os w) = (Ok tt, o) ->
  get_server_pid w = (Ok (Some n), mk_world (fs w) o (log w ++ [EKill n 0])).
Proof.
  intros Hf Hr Hp Hk.
  unfold get_server_pid, bind, pid_file_exists, try_except, pid_file_read,
    py_int, kill, call, ret.
  rewrite Hf. cbn. rewrite Hf, Hr, Hp. cbn. rewrite Hk. reflexivity.
Qed.

Lemma get_server_pid_stale (w : world OS) (f : file) (n : Z) (e : exn) (o : OS) :
  pid_file (fs w) = Some f ->
  readable f = true ->
  int_strip (data f) = Some n ->
  os_kill n 0 (os w) = (Raise e, o) ->
  is_OSError e = true ->
  get_server_pid w =
    (Ok None,
     mk_world (if removable f
               then mk_fs None (data_dir (fs w)) (server_exe (fs w))
               else fs w)
              o (log w ++ [EKill n 0; EUnlink])).
Proof.
  intros Hf Hr Hp Hk He.
  unfold get_server_pid, bind, pid_file_exists, try_except, pid_file_read,
    py_int, kill, call, ret, pid_file_unlink.
  rewrite Hf. cbn. rewrite Hf, Hr, Hp. cbn. rewrite Hk, He. cbn.
  rewrite Hf. destruct (removable f); cbn; rewrite <- app_assoc; reflexivity.
Qed.

Lemma get_server_pid_probe_fault (w : world OS) (f : file) (n : Z) (e : exn) (o : OS) :
  pid_file (fs w) = Some f ->
  readable f = true ->
  int_strip (data f) = Some n ->
  os_kill n 0 (os w) = (Raise e, o) ->
  is_OSError e = false ->
  get_server_pid w =
    (if is_ValueError e then Ok None else Raise e,
     mk_world (fs w) o (log w ++ [EKill n 0])).
Proof.
  intros Hf Hr Hp Hk He.
  unfold get_server_pid, bind, pid_file_exists, try_except, pid_file_read,
    py_int, kill, call, ret.
  rewrite Hf. cbn. rewrite Hf, Hr, Hp. cbn. rewrite Hk, He. cbn.
  rewrite He, orb_false_r. destruct (is_ValueError e); reflexivity.
Qed.

End Registry.

(** ** What computations add to the log *)
Section Emits.
Context {OS : Type} `{H : Host OS}.
Variable P : event -> Prop.

Lemma emits_ret {A} (a : A) : emits (OS := OS) P (ret a).
Proof. intros w. exists []. cbn. rewrite app_nil_r. auto. Qed.

Lemma emits_raise {A} (e : exn) : emits (OS := OS) (A := A) P (raise e).
Proof. intros w. exists []. cbn. rewrite app_nil_r. auto. Qed.

Lemma emits_silent {A} (m : M OS A) :
  (forall w, snd (m w) = w) -> emits P m.
Proof. intros Hm w. exists []. rewrite Hm, app_nil_r. auto. Qed.

Lemma emits_bind {A B} (m : M OS A) (k : A -> M OS B) :
  emits P m -> (forall a, emits P (k a)) -> emits P (bind m k).
Proof.
  intros Hm Hk w. unfold bind.
  destruct (Hm w) as [d1 [E1 F1]].
  destruct (m w) as [[a | e] w1]; cbn in E1.
  - destruct (Hk a w1) as [d2 [E2 F2]].
    exists (d1 ++ d2). rewrite E2, E1, app_assoc.
    split; [reflexivity | apply Forall_app; auto].
  - exists d1. cbn. auto.
Qed.

Lemma emits_try_except {A} (m : M OS A) (c : exn -> bool) (k : exn -> M OS A) :
  emits P m -> (forall e, emits P (k e)) ->
  emits P (try_except m (fun e => if c e then Some (k e) else None)).
Proof.
  intros Hm Hk w. unfold try_except.
  destruct (Hm w) as [d1 [E1 F1]].
  destruct (m w) as [[a | e] w1]; cbn in E1.
  - exists d1. cbn. auto.
  - destruct (c e).
    + destruct (Hk e w1) as [d2 [E2 F2]].
      exists (d1 ++ d2). rewrite E2, E1, app_assoc.
      split; [reflexivity | apply Forall_app; auto].
    + exists d1. cbn. auto.
Qed.

Lemma emits_try_finally {A} (m : M OS A) (f : M OS unit) :
  emits P m -> emits P f -> emits P (try_finally m f).
Proof.
  intros Hm Hf w. unfold try_finally.
  destruct (Hm w) as [d1 [E1 F1]].
  destruct (m w) as [r w1]; cbn in E1.
  destruct (Hf w1) as [d2 [E2 F2]].
  exists (d1 ++ d2).
  destruct (f w1) as [[[] | e] w2]; cbn in *;
    rewrite E2, E1, app_assoc; (split; [reflexivity | apply Forall_app; auto]).
Qed.

Lemma emits_for_else (n : nat) (body : M OS bool) (orelse : M OS unit) :
  emits P body -> emits P orelse -> emits P (for_else n body orelse).
Proof.
  intros Hb Ho. induction n as [| k IH]; cbn [for_else].
  - exact Ho.
  - apply emits_bind; [exact Hb |].
    intros [|]; [apply emits_ret | exact IH].
Qed.

Lemma emits_emit (ev : event) : P ev -> emits (OS := OS) P (emit ev).
Proof. intros Hev w. exists [ev]. cbn. auto. Qed.

Lemma emits_call {A} (ev : event) (f : OS -> result A * OS) :
  P ev -> emits P (call ev f).
Proof.
  intros Hev w. exists [ev]. unfold call.
  destruct (f (os w)) as [r o]. cbn. auto.
Qed.

Lemma emits_pid_file_exists : emits (OS := OS) P pid_file_exists.
Proof. apply emits_silent. reflexivity. Qed.

Lemma emits_server_executable_exists : emits (OS := OS) P server_executable_exists.
Proof. apply emits_silent. reflexivity. Qed.

Lemma emits_pid_file_read : emits (OS := OS) P pid_file_read.
Proof.
  apply emits_silent. intros w. unfold pid_file_read.
  destruct (pid_file (fs w)) as [f |]; [destruct (readable f) |]; reflexivity.
Qed.

Lemma emits_pid_file_write (s : string) :
  P (EWrite s) -> emits (OS := OS) P (pid_file_write s).
Proof.
  intros Hev w. exists [EWrite s]. unfold pid_file_write.
  destruct (pid_file (fs w)) as [f |]; [destruct (writable f) |]; cbn; auto.
Qed.

Lemma emits_pid_file_unlink (missing_ok : bool) :
  P EUnlink -> emits (OS := OS) P (pid_file_unlink missing_ok).
Proof.
  intros Hev w. exists [EUnlink]. unfold pid_file_unlink.
  destruct (pid_file (fs w)) as [f |]; [destruct (removable f) | destruct missing_ok];
    cbn; auto.
Qed.

Lemma emits_data_dir_mkdir : P EMkdir -> emits (OS := OS) P data_dir_mkdir.
Proof. intros Hev w. exists [EMkdir]. cbn. auto. Qed.

Lemma emits_py_int (s : string) : emits P (py_int s).
Proof.
  unfold py_int. destruct (int_strip s); [apply emits_ret | apply emits_raise].
Qed.

Lemma emits_decode (b : string) : emits P (decode b).
Proof.
  unfold decode. destruct (bytes_decode b); [apply emits_ret | apply emits_raise].
Qed.

End Emits.

Section Begins.
Context {OS : Type} `{H : Host OS}.

Lemma begins_call_bind {A B} (ev : event) (f : OS -> result A * OS) (k : A -> M OS B) :
  (forall a, emits any_event (k a)) -> begins [ev] (bind (call ev f) k).
Proof.
  intros Hk w. unfold bind, call.
  destruct (f (os w)) as [[a | e] o].
  - destruct (Hk a (mk_world (fs w) o (log w ++ [ev]))) as [d [E _]].
    exists d. rewrite E. cbn. rewrite <- app_assoc. reflexivity.
  - exists []. reflexivity.
Qed.

Lemma begins_emit_bind {B} (ev : event) (l : list event) (k : M OS B) :
  begins l k -> begins (ev :: l) (bind (emit ev) (fun _ => k)).
Proof.
  intros Hk w. unfold bind, emit.
  destruct (Hk (mk_world (fs w) (os w) (log w ++ [ev]))) as [d E].
  exists d. rewrite E. cbn. rewrite <- app_assoc. reflexivity.
Qed.

Lemma begins_try_except {A} (l : list event) (m : M OS A)
    (c : exn -> bool) (k : exn -> M OS A) :
  begins l m -> (forall e, emits any_event (k e)) ->
  begins l (try_except m (fun e => if c e then Some (k e) else None)).
Proof.
  intros Hm Hk w. unfold try_except.
  destruct (Hm w) as [d1 E1].
  destruct (m w) as [[a | e] w1]; cbn in E1.
  - exists d1. exact E1.
  - destruct (c e).
    + destruct (Hk e w1) as [d2 [E2 _]].
      exists (d1 ++ d2). rewrite E2, E1, <- !app_assoc. reflexivity.
    + exists d1. exact E1.
Qed.

End Begins.

Create HintDb emits.

#[local] Hint Resolve emits_ret emits_raise emits_for_else emits_emit emits_call
  emits_pid_file_exists emits_server_executable_exists emits_pid_file_read
  emits_pid_file_write emits_pid_file_unlink emits_data_dir_mkdir emits_py_int
  emits_decode : emits.

(** One step of a proof by the structure of the computation. *)
Ltac emits_step :=
  lazymatch goal with
  | |- emits _ (bind _ _) => apply emits_bind; [| intros ?]
  | |- emits _ (try_except _ _) => apply emits_try_except; [| intros ?]
  | |- emits _ (try_finally _ _) => apply emits_try_finally
  | |- emits _ (for_else _ _ _) => apply emits_for_else
  | |- emits _ (if ?b then _ else _) => destruct b
  | |- emits _ (match ?x with _ => _ end) => destruct x
  | |- emits _ (print _) => apply emits_emit
  | |- emits _ (call _ _) => apply emits_call
  | |- emits _ (pid_file_unlink _) => apply emits_pid_file_unlink
  | |- emits _ (pid_file_write _) => apply emits_pid_file_write
  | |- emits _ data_dir_mkdir => apply emits_data_dir_mkdir
  | |- emits _ _ => solve [auto with emits]
  end.

Ltac emits_all := repeat emits_step; try solve [cbn; auto | exact I].

Section ScriptLogs.
Context {OS : Type} `{H : Host OS}.

Lemma emits_get_server_pid (P : event -> Prop) :
  (forall n, P (EKill n 0)) -> P EUnlink -> emits P get_server_pid.
Proof. intros Hk Hu. unfold get_server_pid, kill. emits_all. Qed.

Lemma emits_terminate (P : event -> Prop) (pid sig : Z) :
  P (ERun ["taskkill"; "/F"; "/PID"; str pid]) -> P (EKill pid sig) ->
  emits P (terminate pid sig).
Proof. intros Hr Hk. unfold terminate, run, kill. emits_all. Qed.

Lemma emits_poll_absent (P : event -> Prop) (pid : Z) :
  P (ESleep (1 # 2)) -> P (EKill pid 0) -> emits P (poll_absent pid).
Proof. intros Hs Hk. unfold poll_absent, sleep, kill. emits_all. Qed.

Lemma emits_stop_server : emits stop_event stop_server.
Proof.
  unfold stop_server.
  apply emits_bind; [apply emits_get_server_pid; cbn; auto | intros pid].
  unfold escalate, force, terminate, poll_absent, run, kill, sleep. emits_all.
Qed.

Lemma emits_any {A} (P : event -> Prop) (m : M OS A) :
  emits P m -> emits any_event m.
Proof.
  intros Hm w. destruct (Hm w) as [d [E _]]. exists d. split; [exact E |].
  apply Forall_forall. intros; exact I.
Qed.

End ScriptLogs.

(** ** The registry: reading the record *)
Section RegistryClaims.
Context {OS : Type} `{H : Host OS}.

(** C1, as the code has it.  A record whose content parses as an integer
    pid that the existence probe reports absent (the probe raises an
    [OSError]) is [stale]: [get_server_pid] returns [None] after trying to
    unlink the record.  The record file is gone afterwards when the unlink
    succeeds; when it fails, the error is swallowed and the record stays.
    Either way [status_server] on such a record prints STOPPED, never
    RUNNING. *)
Theorem C1_stale_record_self_heals (w : world OS) (n : Z) (o : OS) :
  stale w n o ->
  (fst (get_server_pid w) = Ok None /\
   log (snd (get_server_pid w)) = log w ++ [EKill n 0; EUnlink] /\
   (can_unlink (fs w) = true ->
    pid_file (fs (snd (get_server_pid w))) = None) /\
   (can_unlink (fs w) = false ->
    fs (snd (get_server_pid w)) = fs w)) /\
  (fst (status_server w) = Ok tt /\
   (can_unlink (fs w) = true ->
    pid_file (fs (snd (status_server w))) = None) /\
   (can_unlink (fs w) = false ->
    fs (snd (status_server w)) = fs w) /\
   log (snd (status_server w)) =
     log w ++ [EKill n 0; EUnlink;
               EPrint "Server Status: STOPPED";
               EPrint "   Backend: http://localhost:8080 (not running)"] /\
   forall d, log (snd (status_server w)) = log w ++ d ->
             ~ In (EPrint "Server Status: RUNNING") d).
Proof.
  intros [f e Hf Hr Hp Hk He].
  pose proof (get_server_pid_stale w f n e o Hf Hr Hp Hk He) as Hg.
  assert (Ho : can_unlink (fs w) = removable f).
  { unfold can_unlink. rewrite Hf. reflexivity. }
  split.
  - rewrite Hg, Ho. cbn [fst snd fs log].
    split; [reflexivity | split; [reflexivity | split]]; intros ->; reflexivity.
  - assert (Hs : status_server w =
                 (Ok tt,
                  mk_world (if removable f
                            then mk_fs None (data_dir (fs w)) (server_exe (fs w))
                            else fs w) o
                    (log w ++ [EKill n 0; EUnlink;
                               EPrint "Server Status: STOPPED";
                               EPrint "   Backend: http://localhost:8080 (not running)"]))).
    { unfold status_server, bind. rewrite Hg.
      unfold print, emit. cbn. rewrite <- !app_assoc. reflexivity. }
    rewrite Hs, Ho. cbn [fst snd fs log].
    split; [reflexivity | split; [intros ->; reflexivity | split; [intros ->; reflexivity |]]].
    split; [reflexivity |].
    intros d Hd. apply app_inv_head in Hd. subst d.
    cbn. intros [A | [A | [A | [A | []]]]]; discriminate A.
Qed.

(** C2, as the code has it.  When the record file exists but cannot be
    read, the read raises [PermissionError] inside [get_server_pid], which
    catches it: [get_server_pid] returns [None] and changes nothing. *)
Theorem C2_unreadable_record_reads_as_none (w : world OS) (f : file) :
  pid_file (fs w) = Some f ->
  readable f = false ->
  fst (pid_file_read w) = Raise (mk_exn PermissionError "Permission denied") /\
  get_server_pid w = (Ok None, w).
Proof.
  intros Hf Hr. split.
  - unfold pid_file_read. rewrite Hf, Hr. reflexivity.
  - exact (get_server_pid_unreadable w f Hf Hr).
Qed.

(** C10.  The read does not check that the pid is positive: a record that
    parses as [n <= 0] and whose probe succeeds is returned as the pid, and
    a [stop_server] that follows hands that [n] to the termination
    primitive ([os.kill(n, SIGTERM)], or [taskkill /F /PID n] on Windows)
    right after announcing the stop. *)
Theorem C10_nonpositive_pid_is_signalled (w : world OS) (n : Z) (o : OS) :
  live w n o ->
  n <= 0 ->
  fst (get_server_pid w) = Ok (Some n) /\
  fs (snd (get_server_pid w)) = fs w /\
  exists rest,
    log (snd (stop_server w)) =
      log w ++ [EKill n 0;
                EPrint ("Stopping server (PID: " ++ str n ++ ")...")%string;
                if win32 then ERun ["taskkill"; "/F"; "/PID"; str n]
                else EKill n SIGTERM] ++ rest.
Proof.
  intros [f Hf Hr Hp Hk] Hn.
  pose proof (get_server_pid_live w f n o Hf Hr Hp Hk) as Hg.
  rewrite Hg. cbn. repeat split.
  unfold stop_server, bind at 1. rewrite Hg.
  set (w1 := mk_world _ _ _).
  assert (Hb : begins [EPrint ("Stopping server (PID: " ++ str n ++ ")...")%string;
                       if win32 then ERun ["taskkill"; "/F"; "/PID"; str n]
                       else EKill n SIGTERM]
                 (print ("Stopping server (PID: " ++ str n ++ ")...") ;;;
                  try_except
                    (escalate n)
                    (fun e =>
                       if is_Exception e
                       then Some (print ("ERROR: Failed to stop server: " ++ exn_msg e) ;;;
                                  ret false)
                       else None))).
  { apply begins_emit_bind. apply begins_try_except.
    - unfold escalate, terminate. destruct win32; apply begins_call_bind; intros _;
        unfold force, terminate, poll_absent, run, kill, sleep; emits_all.
    - intros e. emits_all. }
  destruct (Hb w1) as [d Hd]. exists d. rewrite Hd. subst w1. cbn.
  rewrite <- app_assoc. reflexivity.
Qed.

End RegistryClaims.

(** ** Frames: what leaves the file system alone *)
Section Frames.
Context {OS : Type} `{H : Host OS}.

Lemma keeps_fs_ret {A} (a : A) : keeps_fs (OS := OS) (ret a).
Proof. intros w. reflexivity. Qed.

Lemma keeps_fs_emit (ev : event) : keeps_fs (OS := OS) (emit ev).
Proof. intros w. reflexivity. Qed.

Lemma keeps_fs_call {A} (ev : event) (f : OS -> result A * OS) :
  keeps_fs (call ev f).
Proof. intros w. unfold call. destruct (f (os w)). reflexivity. Qed.

Lemma keeps_fs_bind {A B} (m : M OS A) (k : A -> M OS B) :
  keeps_fs m -> (forall a, keeps_fs (k a)) -> keeps_fs (bind m k).
Proof.
  intros Hm Hk w. unfold bind. specialize (Hm w).
  destruct (m w) as [[a | e] w1]; cbn in Hm.
  - rewrite Hk. exact Hm.
  - exact Hm.
Qed.

Lemma keeps_fs_try_except {A} (m : M OS A) (c : exn -> bool) (k : exn -> M OS A) :
  keeps_fs m -> (forall e, keeps_fs (k e)) ->
  keeps_fs (try_except m (fun e => if c e then Some (k e) else None)).
Proof.
  intros Hm Hk w. unfold try_except. specialize (Hm w).
  destruct (m w) as [[a | e] w1]; cbn in Hm; [exact Hm |].
  destruct (c e); [rewrite Hk |]; exact Hm.
Qed.

Lemma keeps_fs_for_else (n : nat) (body : M OS bool) (orelse : M OS unit) :
  keeps_fs body -> keeps_fs orelse -> keeps_fs (for_else n body orelse).
Proof.
  intros Hb Ho. induction n as [| k IH]; cbn [for_else]; [exact Ho |].
  apply keeps_fs_bind; [exact Hb |].
  intros [|]; [apply keeps_fs_ret | exact IH].
Qed.

Lemma terminate_call (pid sig : Z) :
  terminate pid sig = call (request_event pid sig) (request pid sig).
Proof. unfold terminate, request_event, request, run, kill. destruct win32; reflexivity. Qed.

Lemma keeps_fs_terminate (pid sig : Z) : keeps_fs (terminate pid sig).
Proof. rewrite terminate_call. apply keeps_fs_call. Qed.

Lemma keeps_fs_poll_absent (pid : Z) : keeps_fs (poll_absent pid).
Proof.
  unfold poll_absent, sleep, kill.
  apply keeps_fs_bind; [apply keeps_fs_call | intros _].
  apply keeps_fs_try_except; [| intros _; apply keeps_fs_ret].
  apply keeps_fs_bind; [apply keeps_fs_call | intros _; apply keeps_fs_ret].
Qed.

Lemma keeps_fs_force (pid : Z) : keeps_fs (force pid).
Proof.
  unfold force. apply keeps_fs_bind; [apply keeps_fs_emit | intros _].
  apply keeps_fs_terminate.
Qed.

(** When the [try] block of [stop_server] raises, it has not changed the
    file system: the exception comes from a request, a sleep, a probe or an
    unlink that failed. *)
Lemma escalate_raise_keeps_fs (pid : Z) (w w' : world OS) (e : exn) :
  escalate pid w = (Raise e, w') -> fs w' = fs w.
Proof.
  unfold escalate, bind. intros He.
  pose proof (keeps_fs_terminate pid SIGTERM w) as F1.
  destruct (terminate pid SIGTERM w) as [[[] | e1] w1]; cbn in F1.
  - pose proof (keeps_fs_for_else 10 _ _ (keeps_fs_poll_absent pid)
                  (keeps_fs_force pid) w1) as F2.
    destruct (for_else 10 (poll_absent pid) (force pid) w1) as [[[] | e2] w2];
      cbn in F2.
    + unfold pid_file_unlink in He.
      destruct (pid_file (fs w2)) as [f |]; [destruct (removable f) |];
        cbn in He; try discriminate He.
      injection He as _ <-. cbn. congruence.
    + injection He as _ <-. congruence.
  - injection He as _ <-. exact F1.
Qed.

End Frames.

(** ** Running the escalation *)
Section EscalationRuns.
Context {OS : Type} `{H : Host OS}.

Lemma pid_file_unlink_true (w : world OS) :
  pid_file_unlink true w =
    if can_unlink (fs w)
    then (Ok tt,
          mk_world (mk_fs None (data_dir (fs w)) (server_exe (fs w))) (os w)
                   (log w ++ [EUnlink]))
    else (Raise (mk_exn PermissionError "Permission denied"),
          mk_world (fs w) (os w) (log w ++ [EUnlink])).
Proof.
  unfold pid_file_unlink, can_unlink.
  destruct w as [[[f |] d x] o l]; cbn; [destruct (removable f) |]; reflexivity.
Qed.


Lemma poll_absent_present (pid : Z) (F : filesys) (o o1 o2 : OS) (L : list event) :
  time_sleep (1 # 2) o = (Ok tt, o1) ->
  os_kill pid 0 o1 = (Ok tt, o2) ->
  poll_absent pid (mk_world F o L) =
    (Ok false, mk_world F o2 (L ++ [ESleep (1 # 2); EKill pid 0])).
Proof.
  intros Hs Hk. unfold poll_absent, bind, try_except, sleep, kill, call, ret.
  cbn. rewrite Hs. cbn. rewrite Hk. cbn. rewrite <- app_assoc. reflexivity.
Qed.

Lemma poll_absent_gone (pid : Z) (F : filesys) (o o1 o2 : OS) (L : list event) (e : exn) :
  time_sleep (1 # 2) o = (Ok tt, o1) ->
  os_kill pid 0 o1 = (Raise e, o2) ->
  is_OSError e = true ->
  poll_absent pid (mk_world F o L) =
    (Ok true, mk_world F o2 (L ++ [ESleep (1 # 2); EKill pid 0])).
Proof.
  intros Hs Hk He. unfold poll_absent, bind, try_except, sleep, kill, call, ret.
  cbn. rewrite Hs. cbn. rewrite Hk. cbn. rewrite He. cbn.
  rewrite <- app_assoc. reflexivity.
Qed.

(** The loop follows the polling relation. *)
Lemma for_else_polled (pid : Z) (orelse : M OS unit)
    (n : nat) (o : OS) (k : nat) (gone : bool) (o' : OS) :
  polled pid n o k gone o' ->
  forall (F : filesys) (L : list event),
    for_else n (poll_absent pid) orelse (mk_world F o L) =
      if gone then (Ok tt, mk_world F o' (L ++ polls pid k))
      else orelse (mk_world F o' (L ++ polls pid k)).
Proof.
  induction 1 as [o | n o o1 o2 e Hs Hk He | n o o1 o2 k gone o3 Hs Hk Hp IH];
    intros F L; cbn [for_else polls].
  - rewrite app_nil_r. reflexivity.
  - unfold bind. rewrite (poll_absent_gone pid F o o1 o2 L e Hs Hk He).
    reflexivity.
  - unfold bind. rewrite (poll_absent_present pid F o o1 o2 L Hs Hk).
    rewrite IH. rewrite <- app_assoc. reflexivity.
Qed.

Lemma polled_bound (pid : Z) (n : nat) (o : OS) (k : nat) (gone : bool) (o' : OS) :
  polled pid n o k gone o' ->
  (k <= n)%nat /\ (gone = false -> k = n) /\ (gone = true -> (1 <= k)%nat).
Proof.
  induction 1 as [o | n o o1 o2 e Hs Hk He | n o o1 o2 k gone o3 Hs Hk Hp IH].
  - repeat split; auto; discriminate.
  - repeat split; auto; try lia; discriminate.
  - destruct IH as [I1 [I2 I3]]. repeat split; try lia.
    intros G. rewrite (I2 G). reflexivity.
Qed.

(** With sleeps that return and probes that fail only with [OSError], the
    loop always runs to one of its two ends. *)
Lemma polled_total (pid : Z) :
  (forall o, fst (time_sleep (1 # 2) o) = Ok tt) ->
  (forall o e, fst (os_kill pid 0 o) = Raise e -> is_OSError e = true) ->
  forall n o, exists k gone o', polled pid n o k gone o'.
Proof.
  intros Hs Hk. induction n as [| n IH]; intros o.
  - exists 0%nat, false, o. constructor.
  - specialize (Hs o). destruct (time_sleep (1 # 2) o) as [rs o1] eqn:Es.
    cbn in Hs. subst rs.
    specialize (Hk o1). destruct (os_kill pid 0 o1) as [[[] | e] o2] eqn:Ek.
    + destruct (IH o2) as [k [gone [o3 Hp]]].
      exists (S k), gone, o3. eapply polled_more; eauto.
    + exists 1%nat, true, o2. eapply polled_gone; eauto.
Qed.

Lemma escalate_polled (pid : Z) (F : filesys) (o o1 : OS) (L : list event)
    (k : nat) (gone : bool) (o2 : OS) :
  request pid SIGTERM o = (Ok tt, o1) ->
  polled pid 10 o1 k gone o2 ->
  escalate pid (mk_world F o L) =
    match (if gone then (Ok tt, o2) else request pid SIGKILL o2) with
    | (Ok _, o3) =>
        if can_unlink F
        then (Ok true,
              mk_world (mk_fs None (data_dir F) (server_exe F)) o3
                (L ++ request_event pid SIGTERM :: polls pid k ++ stop_tail pid gone
                   ++ [EUnlink; EPrint "Server stopped successfully"]))
        else (Raise (mk_exn PermissionError "Permission denied"),
              mk_world F o3
                (L ++ request_event pid SIGTERM :: polls pid k ++ stop_tail pid gone
                   ++ [EUnlink]))
    | (Raise e, o3) =>
        (Raise e,
         mk_world F o3
           (L ++ request_event pid SIGTERM :: polls pid k ++ stop_tail pid gone))
    end.
Proof.
  intros Hr Hp. unfold escalate, bind at 1. rewrite terminate_call.
  unfold call at 1. cbn [os fs log]. rewrite Hr.
  unfold bind at 1. rewrite (for_else_polled pid _ _ _ _ _ _ Hp).
  destruct gone; cbn [stop_tail].
  - unfold bind. rewrite pid_file_unlink_true. cbn [fs os log].
    destruct (can_unlink F); unfold print, emit, ret; cbn;
      rewrite <- !app_assoc; reflexivity.
  - unfold force, bind at 1. unfold print at 1, emit at 1. cbn [os fs log].
    rewrite terminate_call. unfold call at 1. cbn [os fs log].
    destruct (request pid SIGKILL o2) as [[[] | e] o3].
    + unfold bind. rewrite pid_file_unlink_true. cbn [fs os log].
      destruct (can_unlink F); unfold print, emit, ret; cbn;
        rewrite <- !app_assoc; reflexivity.
    + rewrite <- !app_assoc. reflexivity.
Qed.

End EscalationRuns.

(** ** Stopping *)
Section Stop.
Context {OS : Type} `{H : Host OS}.

(** [stop_server] on a live pid: the announcement, then the [try] block and
    its handler. *)
Lemma stop_server_live (w : world OS) (f : file) (n : Z) (o : OS) :
  pid_file (fs w) = Some f ->
  readable f = true ->
  int_strip (data f) = Some n ->
  os_kill n 0 (os w) = (Ok tt, o) ->
  stop_server w =
    match escalate n
            (mk_world (fs w) o
               (log w ++ [EKill n 0;
                          EPrint ("Stopping server (PID: " ++ str n ++ ")...")%string]))
    with
    | (Ok b, w2) => (Ok b, w2)
    | (Raise e, w2) =>
        if is_Exception e
        then (Ok false,
              mk_world (fs w2) (os w2)
                (log w2 ++ [EPrint ("ERROR: Failed to stop server: " ++ exn_msg e)%string]))
        else (Raise e, w2)
    end.
Proof.
  intros Hf Hr Hp Hk.
  unfold stop_server, bind at 1.
  rewrite (get_server_pid_live w f n o Hf Hr Hp Hk).
  unfold bind at 1, print at 1, emit at 1. cbn [fs os log].
  rewrite <- app_assoc. cbn [app].
  unfold try_except.
  destruct (escalate n _) as [[b | e] w2]; [reflexivity |].
  destruct (is_Exception e); reflexivity.
Qed.

(** [stop_server] when the read of the record gives no pid. *)
Lemma stop_server_not_running (w w1 : world OS) :
  get_server_pid w = (Ok None, w1) ->
  stop_server w =
    (Ok false,
     mk_world (fs w1) (os w1) (log w1 ++ [EPrint "WARNING: Server is not running"])).
Proof.
  intros Hg. unfold stop_server, bind at 1. rewrite Hg. reflexivity.
Qed.

(** C3, as the code has it.  When a termination request of a stop on a live
    pid raises an exception (the first request, or the forced one after ten
    polls), [stop_server] catches it, prints the failure and returns
    [False]; it has not reached the clean-up, and the record file is still
    there, unchanged. *)
Theorem C3_failed_request_keeps_record
    (w : world OS) (n : Z) (o o' : OS) (e : exn) :
  live w n o ->
  request_fails n o e o' ->
  is_Exception e = true ->
  fst (stop_server w) = Ok false /\
  fs (snd (stop_server w)) = fs w /\
  pid_file (fs (snd (stop_server w))) <> None /\
  exists d,
    log (snd (stop_server w)) =
      log w ++ d ++ [EPrint ("ERROR: Failed to stop server: " ++ exn_msg e)%string].
Proof.
  intros [f Hf Hr Hp Hk] Hfail He.
  rewrite (stop_server_live w f n o Hf Hr Hp Hk).
  set (W := mk_world (fs w) o _).
  assert (Hesc : exists o3 L, escalate n W = (Raise e, mk_world (fs w) o3 (log w ++ L))).
  { destruct Hfail as [o3 Hq | o1 o2 o3 Hq Hpoll Hq2].
    - exists o3. eexists. unfold escalate, bind at 1. rewrite terminate_call.
      unfold call at 1. subst W. cbn [fs os log]. rewrite Hq.
      rewrite <- app_assoc. reflexivity.
    - exists o3. eexists. subst W.
      rewrite (escalate_polled n _ _ _ _ _ _ _ Hq Hpoll). rewrite Hq2.
      rewrite <- app_assoc. reflexivity. }
  destruct Hesc as [o3 [L Hesc]]. rewrite Hesc, He. cbn.
  split; [reflexivity | split; [reflexivity | split]].
  - rewrite Hf. discriminate.
  - exists L. rewrite app_assoc. reflexivity.
Qed.

(** One round logs the sleep and, unless the sleep raised, the probe. *)
Lemma poll_absent_log (pid : Z) (w : world OS) :
  exists P R,
    log (snd (poll_absent pid w)) = log w ++ P /\
    [ESleep (1 # 2); EKill pid 0] = P ++ R /\
    (fst (poll_absent pid w) = Ok false -> R = []).
Proof.
  unfold poll_absent, bind, try_except, sleep, kill, call, ret.
  destruct (time_sleep (1 # 2) (os w)) as [[[] | e] o1]; cbn [fs os log].
  - exists [ESleep (1 # 2); EKill pid 0], [].
    destruct (os_kill pid 0 o1) as [[[] | e] o2]; [| destruct (is_OSError e)];
      cbn; rewrite <- app_assoc; auto.
  - exists [ESleep (1 # 2)], [EKill pid 0]. cbn.
    split; [reflexivity | split; [reflexivity | discriminate]].
Qed.

(** The polling loop logs a prefix of its ten rounds, and the forced
    request only after all of them. *)
Lemma poll_loop_shape (pid : Z) (n : nat) (w : world OS) :
  exists P F,
    log (snd (for_else n (poll_absent pid) (force pid) w)) = log w ++ P ++ F /\
    (exists R, polls pid n = P ++ R) /\
    (F = [] \/ (F = stop_tail pid false /\ P = polls pid n)).
Proof.
  revert w. induction n as [| n IH]; intros w; cbn [for_else polls].
  - exists [], (stop_tail pid false). split; [| split; [exists []; reflexivity | auto]].
    unfold force, bind, print, emit. rewrite terminate_call. unfold call.
    cbn [fs os log]. destruct (request pid SIGKILL (os w)) as [r o1].
    cbn. rewrite <- app_assoc. reflexivity.
  - unfold bind at 1.
    destruct (poll_absent_log pid w) as [P0 [R0 [E0 [S0 T0]]]].
    destruct (poll_absent pid w) as [[[|] | e] w1]; cbn [fst snd] in *.
    + exists P0, []. rewrite app_nil_r.
      split; [exact E0 | split; [| auto]].
      exists (R0 ++ polls pid n).
      change (ESleep (1 # 2) :: EKill pid 0 :: polls pid n)
        with ([ESleep (1 # 2); EKill pid 0] ++ polls pid n).
      rewrite S0, app_assoc. reflexivity.
    + rewrite (T0 eq_refl), app_nil_r in S0. subst P0.
      destruct (IH w1) as [P [F [E [[R HR] HF]]]].
      exists (ESleep (1 # 2) :: EKill pid 0 :: P), F.
      rewrite E, E0. split; [| split].
      * repeat (rewrite <- app_assoc; cbn [app]). reflexivity.
      * exists R. rewrite HR. reflexivity.
      * destruct HF as [HF | [HF HP]]; [left; exact HF | right].
        split; [exact HF | rewrite HP; reflexivity].
    + exists P0, []. rewrite app_nil_r.
      split; [exact E0 | split; [| auto]].
      exists (R0 ++ polls pid n).
      change (ESleep (1 # 2) :: EKill pid 0 :: polls pid n)
        with ([ESleep (1 # 2); EKill pid 0] ++ polls pid n).
      rewrite S0, app_assoc. reflexivity.
Qed.

(** C9, as the code has it.  Every stop of a live pid logs, in this order:
    the first termination request; rounds of a 0.5 s sleep and a probe, at
    most ten; the forced request, only after all ten rounds; and after
    that nothing but the clean-up and prints.  When the first request and
    the polls go through, the rounds end at the first probe that finds the
    process absent, and the forced request is sent exactly when all ten
    probes found it present.  The first request is [SIGTERM] and the forced
    one [SIGKILL], except on Windows, where both are [taskkill /F]. *)
Theorem C9_escalation_order (w : world OS) (n : Z) (o : OS) :
  live w n o ->
  let announced :=
    log w ++ [EKill n 0;
              EPrint ("Stopping server (PID: " ++ str n ++ ")...")%string;
              request_event n SIGTERM] in
  (exists P F Q,
     log (snd (stop_server w)) = announced ++ P ++ F ++ Q /\
     (exists R, polls n 10 = P ++ R) /\
     (F = [] \/ (F = stop_tail n false /\ P = polls n 10)) /\
     Forall quiet Q) /\
  (forall o1 k gone o2,
     request n SIGTERM o = (Ok tt, o1) ->
     polled n 10 o1 k gone o2 ->
     (k <= 10)%nat /\
     (gone = false -> k = 10%nat) /\
     exists Q,
       log (snd (stop_server w)) = announced ++ polls n k ++ stop_tail n gone ++ Q /\
       Forall quiet Q) /\
  (win32 = false ->
   request_event n SIGTERM = EKill n SIGTERM /\
   request_event n SIGKILL = EKill n SIGKILL) /\
  (win32 = true ->
   request_event n SIGTERM = ERun ["taskkill"; "/F"; "/PID"; str n] /\
   request_event n SIGKILL = ERun ["taskkill"; "/F"; "/PID"; str n]).
Proof.
  intros [f Hf Hr Hp Hk] announced.
  assert (Hq : forall e L (W : world OS),
            exists Q,
              log (snd (if is_Exception e
                        then (Ok false,
                              mk_world (fs W) (os W)
                                (L ++ [EPrint ("ERROR: Failed to stop server: "
                                               ++ exn_msg e)%string]))
                        else (Raise e, mk_world (fs W) (os W) L)))
              = L ++ Q /\ Forall quiet Q).
  { intros e L W. destruct (is_Exception e).
    - eexists. split; [reflexivity | repeat constructor].
    - exists []. split; [cbn; rewrite app_nil_r; reflexivity | constructor]. }
  split; [| split; [| split; intros W; unfold request_event; rewrite W; split; reflexivity]].
  - rewrite (stop_server_live w f n o Hf Hr Hp Hk).
    unfold escalate, bind at 1. rewrite terminate_call. unfold call at 1.
    cbn [fs os log].
    destruct (request n SIGTERM o) as [[[] | e] o1].
    + unfold bind at 1.
      match goal with
      | |- context [for_else 10 _ _ ?W] =>
          destruct (poll_loop_shape n 10 W) as [P [F [E [HR HF]]]];
          destruct (for_else 10 (poll_absent n) (force n) W) as [[[] | e] w3]
      end; cbn [snd log] in E.
      * unfold bind. rewrite pid_file_unlink_true.
        destruct (can_unlink (fs w3)).
        -- exists P, F, [EUnlink; EPrint "Server stopped successfully"].
           split; [| split; [exact HR | split; [exact HF | repeat constructor]]].
           unfold print, emit, ret.
           cbn [snd fs os log]. rewrite E. subst announced.
           repeat (rewrite <- app_assoc; cbn [app]). reflexivity.
        -- exists P, F,
             [EUnlink; EPrint "ERROR: Failed to stop server: Permission denied"].
           split; [| split; [exact HR | split; [exact HF | repeat constructor]]].
           cbn [snd fs os log is_Exception exn_cls exn_msg]. rewrite E.
           subst announced.
           repeat (rewrite <- app_assoc; cbn [app]). reflexivity.
      * destruct w3 as [F3 o3 L3]. cbn [log] in E.
        destruct (Hq e L3 (mk_world F3 o3 L3)) as [Q [EQ FQ]].
        exists P, F, Q.
        split; [| split; [exact HR | split; [exact HF | exact FQ]]].
        cbn [fs os log] in *.
        destruct (is_Exception e); cbn [snd log] in *; rewrite EQ, E;
          subst announced; repeat (rewrite <- app_assoc; cbn [app]); reflexivity.
    + match goal with
      | |- context [(Raise e, ?W)] => destruct (Hq e (log W) W) as [Q [EQ FQ]]
      end.
      exists [], [], Q.
      split; [| split; [exists (polls n 10); reflexivity | split; [auto | exact FQ]]].
      cbn [fs os log] in *.
      destruct (is_Exception e); cbn [snd log] in *; rewrite EQ;
        subst announced; repeat (rewrite <- app_assoc; cbn [app]); reflexivity.
  - intros o1 k gone o2 Hreq Hpoll.
    destruct (polled_bound n _ _ _ _ _ Hpoll) as [B1 [B2 _]].
    split; [exact B1 | split; [exact B2 |]].
    rewrite (stop_server_live w f n o Hf Hr Hp Hk).
    rewrite (escalate_polled n _ _ _ _ _ _ _ Hreq Hpoll).
    destruct (if gone then (Ok tt, o2) else request n SIGKILL o2) as [[[] | e] o3].
    + destruct (can_unlink (fs w)).
      * exists [EUnlink; EPrint "Server stopped successfully"]. cbn [snd log].
        split; [| repeat constructor].
        subst announced. repeat (rewrite <- app_assoc; cbn [app]). reflexivity.
      * exists [EUnlink; EPrint "ERROR: Failed to stop server: Permission denied"].
        cbn [snd fs os log is_Exception exn_cls exn_msg].
        split; [| repeat constructor].
        subst announced. repeat (rewrite <- app_assoc; cbn [app]). reflexivity.
    + match goal with
      | |- context [(Raise e, ?W)] => destruct (Hq e (log W) W) as [Q [EQ FQ]]
      end.
      exists Q. split; [| exact FQ].
      cbn [fs os log] in *.
      destruct (is_Exception e); cbn [snd log] in *; rewrite EQ;
        subst announced; repeat (rewrite <- app_assoc; cbn [app]); reflexivity.
Qed.

End Stop.

(** ** Stop and restart with nothing to stop *)
Section NotRunning.
Context {OS : Type} `{H : Host OS}.

Lemma get_server_pid_no_pid (w : world OS) :
  no_pid w -> get_server_pid w = (Ok None, w).
Proof.
  intros [Hf | f Hf Hr | f Hf Hr Hp].
  - apply get_server_pid_absent; assumption.
  - eapply get_server_pid_unreadable; eassumption.
  - eapply get_server_pid_unparsable; eassumption.
Qed.

(** What a read returns and does to the world does not depend on the log
    it finds; it only appends to it. *)
Lemma get_server_pid_relog (F : filesys) (o : OS) :
  exists r F' o' d,
    forall L, get_server_pid (mk_world F o L) = (r, mk_world F' o' (L ++ d)).
Proof.
  destruct (pid_file F) as [f |] eqn:Hf.
  2:{ exists (Ok None), F, o, []. intros L. rewrite app_nil_r.
      apply get_server_pid_absent. exact Hf. }
  destruct (readable f) eqn:Hr.
  2:{ exists (Ok None), F, o, []. intros L. rewrite app_nil_r.
      eapply get_server_pid_unreadable; eassumption. }
  destruct (int_strip (data f)) as [n |] eqn:Hp.
  2:{ exists (Ok None), F, o, []. intros L. rewrite app_nil_r.
      eapply get_server_pid_unparsable; eassumption. }
  destruct (os_kill n 0 o) as [[[] | e] o'] eqn:Hk.
  - exists (Ok (Some n)), F, o', [EKill n 0]. intros L.
    apply (get_server_pid_live (mk_world F o L) f n o' Hf Hr Hp Hk).
  - destruct (is_OSError e) eqn:He.
    + exists (Ok None),
        (if removable f then mk_fs None (data_dir F) (server_exe F) else F),
        o', [EKill n 0; EUnlink].
      intros L. apply (get_server_pid_stale (mk_world F o L) f n e o' Hf Hr Hp Hk He).
    + exists (if is_ValueError e then Ok None else Raise e), F, o', [EKill n 0].
      intros L.
      apply (get_server_pid_probe_fault (mk_world F o L) f n e o' Hf Hr Hp Hk He).
Qed.

(** C7, as the code has it.  When the read of the record gives no pid,
    [stop_server] prints the warning and returns [False] without raising.
    With no record, or a record that cannot be read or parsed, it changes
    nothing (so a second stop says the same); with a stale record the read
    has tried to unlink the record file, which is gone unless the unlink
    failed.  [restart_server] prints the same warning, sleeps, and then
    goes on to [start_server()] in background mode. *)
Theorem C7_nothing_to_stop (w w1 : world OS) :
  get_server_pid w = (Ok None, w1) ->
  stop_server w =
    (Ok false,
     mk_world (fs w1) (os w1) (log w1 ++ [EPrint "WARNING: Server is not running"])) /\
  (no_pid w ->
   w1 = w /\
   stop_server (snd (stop_server w)) =
     (Ok false,
      mk_world (fs w) (os w)
        (log w ++ [EPrint "WARNING: Server is not running";
                   EPrint "WARNING: Server is not running"]))) /\
  (forall n o, stale w n o ->
     log w1 = log w ++ [EKill n 0; EUnlink] /\
     (can_unlink (fs w) = true ->
      fs w1 = mk_fs None (data_dir (fs w)) (server_exe (fs w))) /\
     (can_unlink (fs w) = false -> fs w1 = fs w)) /\
  exists d,
    log w1 = log w ++ d /\
    restart_server w =
      match time_sleep 1 (os w1) with
      | (Ok _, o2) =>
          match start_server false false
                  (mk_world (fs w1) o2
                     (log w ++ EPrint "Restarting server..." :: d
                            ++ [EPrint "WARNING: Server is not running"; ESleep 1]))
          with
          | (Ok _, w') => (Ok tt, w')
          | (Raise e, w') => (Raise e, w')
          end
      | (Raise e, o2) =>
          (Raise e,
           mk_world (fs w1) o2
             (log w ++ EPrint "Restarting server..." :: d
                    ++ [EPrint "WARNING: Server is not running"; ESleep 1]))
      end.
Proof.
  intros Hg. split; [exact (stop_server_not_running w w1 Hg) |].
  split; [| split].
  - intros Hn. pose proof (get_server_pid_no_pid w Hn) as Hg'.
    rewrite Hg in Hg'. injection Hg' as ->. split; [reflexivity |].
    rewrite (stop_server_not_running w w Hg). cbn [snd].
    assert (Hn' : no_pid (mk_world (fs w) (os w)
                            (log w ++ [EPrint "WARNING: Server is not running"]))).
    { destruct Hn as [Hf | f Hf Hr | f Hf Hr Hp].
      - apply no_record; exact Hf.
      - eapply unreadable_record; eassumption.
      - eapply unparsable_record; eassumption. }
    rewrite (stop_server_not_running _ _ (get_server_pid_no_pid _ Hn')).
    cbn [fs os log]. rewrite <- app_assoc. reflexivity.
  - intros n o [f e Hf Hr Hp Hk He].
    rewrite (get_server_pid_stale w f n e o Hf Hr Hp Hk He) in Hg.
    injection Hg as <-. unfold can_unlink. rewrite Hf. cbn [fs log].
    split; [reflexivity | split; intros ->; reflexivity].
  - destruct w as [F o L].
    destruct (get_server_pid_relog F o) as [r [F' [o' [d Hd]]]].
    rewrite Hd in Hg. injection Hg as -> <-.
    exists d. split; [reflexivity |].
    unfold restart_server, bind at 1, print at 1, emit at 1. cbn [fs os log].
    unfold bind at 1.
    rewrite (stop_server_not_running _ _ (Hd (L ++ [EPrint "Restarting server..."]))).
    cbn [fs os log].
    unfold bind at 1, sleep at 1, call at 1. cbn [fs os log].
    destruct (time_sleep 1 o') as [[[] | e] o2].
    + unfold bind, ret. repeat (rewrite <- app_assoc; cbn [app]).
      destruct (start_server false false _) as [[b | e] w']; reflexivity.
    + repeat (rewrite <- app_assoc; cbn [app]). reflexivity.
Qed.

End NotRunning.

(** ** Starting *)
Section Start.
Context {OS : Type} `{H : Host OS}.

Lemma emits_weaken {A} (P Q : event -> Prop) (m : M OS A) :
  (forall ev, P ev -> Q ev) -> emits P m -> emits Q m.
Proof.
  intros HPQ Hm w. destruct (Hm w) as [d [E F]]. exists d. split; [exact E |].
  eapply Forall_impl; eauto.
Qed.

Lemma is_server_running_live (w : world OS) (n : Z) (o : OS) :
  live w n o ->
  is_server_running w = (Ok true, mk_world (fs w) o (log w ++ [EKill n 0])).
Proof.
  intros [f Hf Hr Hp Hk]. unfold is_server_running, bind.
  rewrite (get_server_pid_live w f n o Hf Hr Hp Hk). reflexivity.
Qed.

Lemma is_server_running_none (w w0 : world OS) :
  get_server_pid w = (Ok None, w0) ->
  is_server_running w = (Ok false, w0).
Proof.
  intros Hg. unfold is_server_running, bind. rewrite Hg. reflexivity.
Qed.

(** What [start_server] does once its check has found a live pid: it reads
    the record a second time, for the message. *)
Lemma start_server_running (foreground use_go : bool) (w : world OS) (n : Z) (o : OS) :
  live w n o ->
  start_server foreground use_go w =
    match os_kill n 0 o with
    | (Ok _, o') =>
        (Ok false,
         mk_world (fs w) o'
           (log w ++ [EKill n 0; EKill n 0;
                      EPrint ("ERROR: Server is already running (PID: "
                              ++ str n ++ ")")%string]))
    | (Raise e, o') =>
        if is_OSError e
        then (Ok false,
              mk_world (if can_unlink (fs w)
                        then mk_fs None (data_dir (fs w)) (server_exe (fs w))
                        else fs w) o'
                (log w ++ [EKill n 0; EKill n 0; EUnlink;
                           EPrint "ERROR: Server is already running (PID: None)"]))
        else if is_ValueError e
        then (Ok false,
              mk_world (fs w) o'
                (log w ++ [EKill n 0; EKill n 0;
                           EPrint "ERROR: Server is already running (PID: None)"]))
        else (Raise e, mk_world (fs w) o' (log w ++ [EKill n 0; EKill n 0]))
    end.
Proof.
  intros Hl. unfold start_server, bind at 1.
  rewrite (is_server_running_live w n o Hl).
  destruct Hl as [f Hf Hr Hp Hk].
  unfold bind at 1.
  set (W := mk_world (fs w) o (log w ++ [EKill n 0])).
  destruct (os_kill n 0 o) as [[[] | e] o'] eqn:Hk2.
  - rewrite (get_server_pid_live W f n o' Hf Hr Hp Hk2).
    unfold bind, print, emit, ret. cbn.
    repeat (rewrite <- app_assoc; cbn [app]). reflexivity.
  - destruct (is_OSError e) eqn:He.
    + rewrite (get_server_pid_stale W f n e o' Hf Hr Hp Hk2 He).
      unfold can_unlink. cbn [W fs]. rewrite Hf.
      unfold bind, print, emit, ret. cbn.
      repeat (rewrite <- app_assoc; cbn [app]). reflexivity.
    + rewrite (get_server_pid_probe_fault W f n e o' Hf Hr Hp Hk2 He).
      destruct (is_ValueError e); [| cbn; rewrite <- app_assoc; reflexivity].
      unfold bind, print, emit, ret. cbn.
      repeat (rewrite <- app_assoc; cbn [app]). reflexivity.
Qed.

(** C4, as the code has it.  When its check finds a live pid,
    [start_server] spawns nothing and never returns [True], and all it may
    do to the file system is remove the record.  It reads the record a
    second time for its message: when the process is still there, it prints
    the already-running error with that pid and returns [False], and the
    file system is as before, the record still holding the pid; when the
    process has gone in between, the second read finds the record stale,
    tries to unlink it, and the message says [PID: None]. *)
Theorem C4_start_refused_when_running
    (foreground use_go : bool) (w : world OS) (n : Z) (o : OS) :
  live w n o ->
  (forall d, log (snd (start_server foreground use_go w)) = log w ++ d ->
             ~ Exists is_spawn d) /\
  fst (start_server foreground use_go w) <> Ok true /\
  fs_le (fs (snd (start_server foreground use_go w))) (fs w) /\
  (forall o',
     os_kill n 0 o = (Ok tt, o') ->
     start_server foreground use_go w =
       (Ok false,
        mk_world (fs w) o'
          (log w ++ [EKill n 0; EKill n 0;
                     EPrint ("ERROR: Server is already running (PID: "
                             ++ str n ++ ")")%string])) /\
     exists f, pid_file (fs (snd (start_server foreground use_go w))) = Some f /\
               int_strip (data f) = Some n) /\
  (forall e o',
     os_kill n 0 o = (Raise e, o') ->
     is_OSError e = true ->
     start_server foreground use_go w =
       (Ok false,
        mk_world (if can_unlink (fs w)
                  then mk_fs None (data_dir (fs w)) (server_exe (fs w))
                  else fs w) o'
          (log w ++ [EKill n 0; EKill n 0; EUnlink;
                     EPrint "ERROR: Server is already running (PID: None)"]))).
Proof.
  intros Hl. pose proof (start_server_running foreground use_go w n o Hl) as E.
  assert (Hns : forall l, ~ Exists is_spawn l ->
                  forall d, log w ++ l = log w ++ d -> ~ Exists is_spawn d).
  { intros l Hl' d Hd. apply app_inv_head in Hd. subst d. exact Hl'. }
  assert (Hno : forall l, Forall (fun ev => ~ is_spawn ev) l -> ~ Exists is_spawn l).
  { intros l Hf Hex. apply Exists_exists in Hex. destruct Hex as [ev [Hin Hev]].
    rewrite Forall_forall in Hf. exact (Hf ev Hin Hev). }
  split; [| split; [| split; [| split]]].
  - rewrite E.
    destruct (os_kill n 0 o) as [[[] | e] o']; cbn [snd log].
    + apply Hns, Hno. repeat constructor; intros [].
    + destruct (is_OSError e); [| destruct (is_ValueError e)]; cbn [snd log];
        apply Hns, Hno; repeat constructor; intros [].
  - rewrite E.
    destruct (os_kill n 0 o) as [[[] | e] o']; cbn [fst]; [discriminate |].
    destruct (is_OSError e); [| destruct (is_ValueError e)]; cbn [fst]; discriminate.
  - rewrite E. unfold fs_le.
    destruct (os_kill n 0 o) as [[[] | e] o']; cbn [snd fs]; [tauto |].
    destruct (is_OSError e); [| destruct (is_ValueError e)]; cbn [snd fs];
      try tauto.
    destruct (can_unlink (fs w)); cbn; tauto.
  - intros o' Hk. rewrite E, Hk. cbn [snd fs]. split; [reflexivity |].
    destruct Hl as [f Hf Hr Hp _]. exists f. auto.
  - intros e o' Hk He. rewrite E, Hk, He. reflexivity.
Qed.

Lemma emits_start_background (P : event -> Prop) (use_go : bool) :
  P (EPopen (mk_popen (launch_command use_go) SERVER_DIR true true launch_flags)) ->
  (forall s, P (EPrint s)) -> (forall s, P (EWrite s)) -> (forall d, P (ESleep d)) ->
  (forall p, P (EPoll p)) -> (forall p, P (ECommunicate p)) -> P EUnlink ->
  emits P (start_background use_go).
Proof.
  intros. unfold start_background, Popen, sleep, poll, communicate.
  emits_all.
Qed.



End Start.

(** ** Launching *)
Section Launch.
Context {OS : Type} `{H : Host OS}.

(** Past its two checks, [start_server] announces the start, makes the data
    directory and runs the launch inside its [try]. *)
Lemma start_server_launch (foreground use_go : bool) (w w0 : world OS) :
  get_server_pid w = (Ok None, w0) ->
  use_go = true \/ server_exe (fs w0) = true ->
  start_server foreground use_go w =
    match (if foreground then start_foreground use_go else start_background use_go)
            (mk_world (mk_fs (pid_file (fs w0)) true (server_exe (fs w0))) (os w0)
               (log w0 ++ [EPrint "Starting Hytale Server Manager backend..."; EMkdir]))
    with
    | (Ok b, w2) => (Ok b, w2)
    | (Raise e, w2) =>
        if is_Exception e
        then if can_unlink (fs w2)
             then (Ok false,
                   mk_world (mk_fs None (data_dir (fs w2)) (server_exe (fs w2))) (os w2)
                     (log w2 ++ [EPrint ("ERROR: Failed to start server: "
                                         ++ exn_msg e)%string;
                                 EUnlink]))
             else (Raise (mk_exn PermissionError "Permission denied"),
                   mk_world (fs w2) (os w2)
                     (log w2 ++ [EPrint ("ERROR: Failed to start server: "
                                         ++ exn_msg e)%string;
                                 EUnlink]))
        else (Raise e, w2)
    end.
Proof.
  intros Hg Hexe. unfold start_server, bind at 1.
  rewrite (is_server_running_none w w0 Hg).
  assert (Hm : (if negb use_go
                then (present <- server_executable_exists ;; ret (negb present))
                else ret false) w0 = (Ok false, w0)).
  { destruct use_go; cbn [negb]; [reflexivity |].
    destruct Hexe as [Hexe | Hexe]; [discriminate Hexe |].
    unfold bind, server_executable_exists, ret. rewrite Hexe. reflexivity. }
  unfold bind at 1. rewrite Hm.
  unfold bind at 1, print at 1, emit at 1.
  unfold bind at 1, data_dir_mkdir at 1. cbn [fs os log].
  rewrite <- app_assoc. cbn [app].
  unfold try_except.
  destruct ((if foreground then start_foreground use_go else start_background use_go) _)
    as [[b | e] w2]; [reflexivity |].
  destruct (is_Exception e); [| reflexivity].
  unfold bind at 1, print at 1, emit at 1. unfold bind.
  rewrite pid_file_unlink_true. unfold ret. cbn [fs os log].
  destruct (can_unlink (fs w2)); rewrite <- app_assoc; reflexivity.
Qed.



(** The record after [pid_file_write]: a new file is readable and
    removable, an old one keeps these flags; a record that is not writable
    cannot be rewritten. *)
Lemma pid_file_write_ok (s : string) (F : filesys) (o : OS) (L : list event) :
  can_write F = true ->
  pid_file_write s (mk_world F o L) =
    (Ok tt,
     mk_world
       (mk_fs (Some (mk_record (match pid_file F with
                                | Some f => readable f
                                | None => true
                                end) true (can_unlink F) s))
              (data_dir F) (server_exe F))
       o (L ++ [EWrite s])).
Proof.
  unfold can_write, can_unlink, pid_file_write. cbn [fs os log].
  destruct (pid_file F) as [f |]; [intros -> |]; reflexivity.
Qed.


Lemma pid_file_write_locked (s : string) (F : filesys) (o : OS) (L : list event) :
  can_write F = false ->
  pid_file_write s (mk_world F o L) =
    (Raise (mk_exn PermissionError "Permission denied"),
     mk_world F o (L ++ [EWrite s])).
Proof.
  unfold can_write, pid_file_write. cbn [fs os log].
  destruct (pid_file F) as [f |]; [intros -> | discriminate]; reflexivity.
Qed.




End Launch.


(** ** The script on the simulated host *)
Section Scenarios.
Import Sim.

Example scenario_status_of_nothing :
  log (snd (status_server (H := linux) fresh)) =
    [EPrint "Server Status: STOPPED";
     EPrint "   Backend: http://localhost:8080 (not running)"].
Proof. reflexivity. Qed.

Example scenario_start_status_stop :
  let w1 := snd (start_server (H := linux) false false fresh) in
  let w2 := snd (status_server (H := linux) w1) in
  let w3 := snd (stop_server (H := linux) w2) in
  pid_file (fs w1) = record_of "4242" /\
  alive (os w1) = [4242] /\
  In (EPrint "Server Status: RUNNING") (log w2) /\
  pid_file (fs w3) = None /\
  alive (os w3) = [] /\
  fst (status_server (H := linux) w3) = Ok tt /\
  last (removelast (log (snd (status_server (H := linux) w3)))) EMkdir =
    EPrint "Server Status: STOPPED".
Proof.
  repeat split; try reflexivity.
  vm_compute. repeat (first [left; reflexivity | right]).
Qed.

Example scenario_stubborn_is_killed :
  let w := snd (stop_server (H := linux) stubborn) in
  alive (os w) = [] /\ pid_file (fs w) = None /\
  log w =
    EKill 77 0 :: EPrint "Stopping server (PID: 77)..." :: EKill 77 SIGTERM
    :: polls 77 10
    ++ [EPrint "   Server didn't stop gracefully, forcing..."; EKill 77 SIGKILL;
        EUnlink; EPrint "Server stopped successfully"].
Proof. vm_compute. repeat split. Qed.

End Scenarios.



(** * Further properties of the script *)

(** ** The record is never created or rewritten by a read *)
Section Clears.
Context {OS : Type} `{H : Host OS}.

Lemma fs_le_refl (F : filesys) : fs_le F F.
Proof. unfold fs_le. auto. Qed.

Lemma fs_le_trans (F1 F2 F3 : filesys) : fs_le F1 F2 -> fs_le F2 F3 -> fs_le F1 F3.
Proof.
  unfold fs_le. intros [A1 [B1 C1]] [A2 [B2 C2]].
  split; [congruence | split; [congruence |]].
  destruct C1 as [C1 | C1]; [| right; exact C1].
  destruct C2 as [C2 | C2]; [left | right]; congruence.
Qed.

Lemma only_clears_keeps {A} (m : M OS A) : keeps_fs m -> only_clears m.
Proof. intros Hm w. rewrite Hm. apply fs_le_refl. Qed.

Lemma only_clears_silent {A} (m : M OS A) :
  (forall w, snd (m w) = w) -> only_clears m.
Proof. intros Hm w. rewrite Hm. apply fs_le_refl. Qed.

Lemma only_clears_bind {A B} (m : M OS A) (k : A -> M OS B) :
  only_clears m -> (forall a, only_clears (k a)) -> only_clears (bind m k).
Proof.
  intros Hm Hk w. unfold bind. specialize (Hm w).
  destruct (m w) as [[a | e] w1]; cbn in Hm; [| exact Hm].
  eapply fs_le_trans; [apply Hk | exact Hm].
Qed.

Lemma only_clears_try_except {A} (m : M OS A) (h : exn -> option (M OS A)) :
  only_clears m -> (forall e k, h e = Some k -> only_clears k) ->
  only_clears (try_except m h).
Proof.
  intros Hm Hh w. unfold try_except. specialize (Hm w).
  destruct (m w) as [[a | e] w1]; cbn in Hm; [exact Hm |].
  destruct (h e) as [k |] eqn:E; [| exact Hm].
  eapply fs_le_trans; [apply (Hh e k E) | exact Hm].
Qed.

Lemma only_clears_for_else (n : nat) (body : M OS bool) (orelse : M OS unit) :
  only_clears body -> only_clears orelse -> only_clears (for_else n body orelse).
Proof.
  intros Hb Ho. induction n as [| k IH]; cbn [for_else]; [exact Ho |].
  apply only_clears_bind; [exact Hb |].
  intros [|]; [apply only_clears_silent; reflexivity | exact IH].
Qed.

Lemma only_clears_unlink (missing_ok : bool) :
  only_clears (OS := OS) (pid_file_unlink missing_ok).
Proof.
  intros w. unfold pid_file_unlink, fs_le.
  destruct (pid_file (fs w)) as [f |] eqn:E;
    [destruct (removable f) | destruct missing_ok]; cbn; auto.
Qed.

Lemma only_clears_ret {A} (a : A) : only_clears (OS := OS) (ret a).
Proof. apply only_clears_silent. reflexivity. Qed.

Lemma only_clears_print (s : string) : only_clears (OS := OS) (print s).
Proof. apply only_clears_keeps, keeps_fs_emit. Qed.

Lemma only_clears_call {A} (ev : event) (f : OS -> result A * OS) :
  only_clears (call ev f).
Proof. apply only_clears_keeps, keeps_fs_call. Qed.

Lemma only_clears_get_server_pid : only_clears get_server_pid.
Proof.
  unfold get_server_pid.
  apply only_clears_bind; [apply only_clears_silent; reflexivity | intros present].
  destruct (negb present); [apply only_clears_ret |].
  apply only_clears_try_except.
  2:{ intros e k Hk. destruct (is_ValueError e || is_OSError e); [| discriminate Hk].
      injection Hk as <-. apply only_clears_ret. }
  apply only_clears_bind.
  { apply only_clears_silent. intros w. unfold pid_file_read.
    destruct (pid_file (fs w)) as [f |]; [destruct (readable f) |]; reflexivity. }
  intros s. apply only_clears_bind.
  { apply only_clears_silent. intros w. unfold py_int.
    destruct (int_strip s); reflexivity. }
  intros pid. apply only_clears_try_except.
  - apply only_clears_bind; [apply only_clears_call | intros _; apply only_clears_ret].
  - intros e k Hk. destruct (is_OSError e); [| discriminate Hk].
    injection Hk as <-.
    apply only_clears_bind; [apply only_clears_unlink | intros _; apply only_clears_ret].
Qed.

(** X1.  When [get_server_pid] returns a pid, the record was there,
    readable, and parsed as that pid, the probe of that pid succeeded, and
    the read changed nothing in the file system: it logged the probe and
    nothing else. *)
Theorem get_server_pid_some_inv (w w' : world OS) (n : Z) :
  get_server_pid w = (Ok (Some n), w') ->
  live w n (os w') /\
  fs w' = fs w /\
  log w' = log w ++ [EKill n 0].
Proof.
  intros Hg.
  destruct (pid_file (fs w)) as [f |] eqn:Hf.
  2:{ rewrite (get_server_pid_absent w Hf) in Hg. discriminate Hg. }
  destruct (readable f) eqn:Hr.
  2:{ rewrite (get_server_pid_unreadable w f Hf Hr) in Hg. discriminate Hg. }
  destruct (int_strip (data f)) as [m |] eqn:Hp.
  2:{ rewrite (get_server_pid_unparsable w f Hf Hr Hp) in Hg. discriminate Hg. }
  destruct (os_kill m 0 (os w)) as [[[] | e] o] eqn:Hk.
  - rewrite (get_server_pid_live w f m o Hf Hr Hp Hk) in Hg.
    injection Hg as -> <-. cbn.
    split; [exact (live_record w n o f Hf Hr Hp Hk) | auto].
  - destruct (is_OSError e) eqn:He.
    + rewrite (get_server_pid_stale w f m e o Hf Hr Hp Hk He) in Hg. discriminate Hg.
    + rewrite (get_server_pid_probe_fault w f m e o Hf Hr Hp Hk He) in Hg.
      destruct (is_ValueError e); discriminate Hg.
Qed.

(** X2.  A read of the record never creates or rewrites anything: after
    [get_server_pid] the record is as before or gone, the rest of the file
    system is as before, and all the read has done to the outside is probe
    with signal 0 and unlink. *)
Theorem get_server_pid_only_probes_and_clears (w : world OS) :
  fs_le (fs (snd (get_server_pid w))) (fs w) /\
  exists d,
    log (snd (get_server_pid w)) = log w ++ d /\ Forall probe_event d.
Proof.
  split; [apply only_clears_get_server_pid |].
  apply emits_get_server_pid; cbn; auto.
Qed.

(** X3.  An exception of the probe that is neither an [OSError] nor a
    [ValueError] (an [OverflowError] for a pid too large for the system
    call, say) is not handled anywhere: with a readable record that parses,
    [get_server_pid] raises it after the probe and leaves the record in
    place, and so do [status_server], [stop_server] and [start_server],
    which have done nothing else by then. *)
Theorem probe_error_escapes (w : world OS) (f : file) (n : Z) (e : exn) (o : OS) :
  pid_file (fs w) = Some f ->
  readable f = true ->
  int_strip (data f) = Some n ->
  os_kill n 0 (os w) = (Raise e, o) ->
  is_OSError e = false ->
  is_ValueError e = false ->
  let w' := mk_world (fs w) o (log w ++ [EKill n 0]) in
  get_server_pid w = (Raise e, w') /\
  status_server w = (Raise e, w') /\
  stop_server w = (Raise e, w') /\
  forall foreground use_go, start_server foreground use_go w = (Raise e, w').
Proof.
  intros Hf Hr Hp Hk He Hv w'.
  assert (Hg : get_server_pid w = (Raise e, w')).
  { rewrite (get_server_pid_probe_fault w f n e o Hf Hr Hp Hk He), Hv. reflexivity. }
  split; [exact Hg |].
  split; [unfold status_server, bind; rewrite Hg; reflexivity |].
  split; [unfold stop_server, bind; rewrite Hg; reflexivity |].
  intros foreground use_go.
  unfold start_server, is_server_running, bind. rewrite Hg. reflexivity.
Qed.

(** X4.  Self-healing is done once: after a read that found the record
    stale and could unlink it, the record is gone and the next read finds no
    record, probes nothing and changes nothing. *)
Theorem get_server_pid_after_stale (w : world OS) (n : Z) (o : OS) :
  stale w n o ->
  can_unlink (fs w) = true ->
  pid_file (fs (snd (get_server_pid w))) = None /\
  get_server_pid (snd (get_server_pid w)) = (Ok None, snd (get_server_pid w)).
Proof.
  intros [f e Hf Hr Hp Hk He] Hown.
  unfold can_unlink in Hown. rewrite Hf in Hown.
  rewrite (get_server_pid_stale w f n e o Hf Hr Hp Hk He), Hown. cbn [snd fs pid_file].
  split; [reflexivity |].
  apply get_server_pid_absent. reflexivity.
Qed.

End Clears.

(** ** More on stopping *)
Section StopMore.
Context {OS : Type} `{H : Host OS}.

Lemma escalate_ok_inv (pid : Z) (w w' : world OS) (b : bool) :
  escalate pid w = (Ok b, w') ->
  b = true /\ pid_file (fs w') = None /\
  exists l, log w' = l ++ [EUnlink; EPrint "Server stopped successfully"].
Proof.
  unfold escalate, bind. intros He.
  destruct (terminate pid SIGTERM w) as [[[] | e1] w1]; [| discriminate He].
  destruct (for_else 10 (poll_absent pid) (force pid) w1) as [[[] | e2] w2];
    [| discriminate He].
  rewrite pid_file_unlink_true in He.
  destruct (can_unlink (fs w2)); [| discriminate He].
  unfold print, emit, ret in He. cbn in He.
  injection He as <- <-. cbn.
  split; [reflexivity | split; [reflexivity |]].
  exists (log w2). rewrite <- app_assoc. reflexivity.
Qed.

Lemma stop_server_true_inv (w : world OS) :
  fst (stop_server w) = Ok true ->
  pid_file (fs (snd (stop_server w))) = None /\
  exists l,
    log (snd (stop_server w)) = l ++ [EUnlink; EPrint "Server stopped successfully"].
Proof.
  unfold stop_server, bind.
  destruct (get_server_pid w) as [[[pid |] | e] w1]; cbn [fst snd]; try discriminate.
  unfold print, emit, try_except.
  destruct (escalate pid _) as [[b | e] w2] eqn:E.
  - destruct (escalate_ok_inv pid _ _ _ E) as [-> [Hf Hl]]. cbn [fst snd]. auto.
  - destruct (is_Exception e); cbn [fst snd]; discriminate.
Qed.

(** X5.  [stop_server] returns [True] only after its own clean-up: the
    record file is then absent, and the last things it did were the unlink
    and the success message. *)
Theorem stop_server_true_means_cleared (w : world OS) :
  fst (stop_server w) = Ok true ->
  pid_file (fs (snd (stop_server w))) = None /\
  exists l,
    log (snd (stop_server w)) = l ++ [EUnlink; EPrint "Server stopped successfully"].
Proof. exact (stop_server_true_inv w). Qed.



(** Rounds of polling that find the process present use up attempts. *)
Lemma for_else_still_there (pid : Z) (orelse : M OS unit)
    (k : nat) (o o' : OS) :
  still_there pid k o o' ->
  forall (n : nat) (F : filesys) (L : list event),
    for_else (k + n) (poll_absent pid) orelse (mk_world F o L) =
      for_else n (poll_absent pid) orelse (mk_world F o' (L ++ polls pid k)).
Proof.
  induction 1 as [o | k o o1 o2 o3 Hs Hk Hp IH]; intros n F L;
    cbn [for_else polls Nat.add].
  - rewrite app_nil_r. reflexivity.
  - unfold bind. rewrite (poll_absent_present pid F o o1 o2 L Hs Hk).
    rewrite IH. rewrite <- app_assoc. reflexivity.
Qed.

(** X7.  A Ctrl+C (anything that is not an [Exception]) during a sleep of
    the polling loop is not caught: on a live pid whose termination request
    went through and that [k < 10] rounds of polling found present,
    [stop_server] raises it from the next sleep; the clean-up has not run,
    no forced request has been sent, and the record is still in place,
    holding the pid. *)
Theorem stop_server_interrupted_keeps_record
    (w : world OS) (n : Z) (o o1 o2 o3 : OS) (k : nat) (e : exn) :
  live w n o ->
  request n SIGTERM o = (Ok tt, o1) ->
  still_there n k o1 o2 ->
  (k < 10)%nat ->
  time_sleep (1 # 2) o2 = (Raise e, o3) ->
  is_Exception e = false ->
  stop_server w =
    (Raise e,
     mk_world (fs w) o3
       (log w ++ [EKill n 0;
                  EPrint ("Stopping server (PID: " ++ str n ++ ")...")%string;
                  request_event n SIGTERM]
              ++ polls n k ++ [ESleep (1 # 2)])) /\
  exists f, pid_file (fs (snd (stop_server w))) = Some f /\
            int_strip (data f) = Some n.
Proof.
  intros [f Hf Hr Hp Hk] Hreq Hst Hlt Hsl He.
  assert (E : stop_server w =
    (Raise e,
     mk_world (fs w) o3
       (log w ++ [EKill n 0;
                  EPrint ("Stopping server (PID: " ++ str n ++ ")...")%string;
                  request_event n SIGTERM]
              ++ polls n k ++ [ESleep (1 # 2)]))).
  { rewrite (stop_server_live w f n o Hf Hr Hp Hk).
    unfold escalate, bind at 1. rewrite terminate_call.
    unfold call at 1. cbn [os fs log]. rewrite Hreq.
    unfold bind at 1.
    replace 10%nat with (k + S (9 - k))%nat by lia.
    rewrite (for_else_still_there n _ k o1 o2 Hst).
    cbn [for_else]. unfold bind at 1.
    unfold poll_absent, bind at 1, sleep, call. cbn [os fs log].
    rewrite Hsl, He.
    repeat (rewrite <- app_assoc; cbn [app]). reflexivity. }
  split; [exact E |].
  rewrite E. cbn [snd fs]. exists f. auto.
Qed.

(** X8.  Stop is idempotent after a success: a stop that follows a stop
    that returned [True] finds no record, prints the warning, returns
    [False] and does nothing else. *)
Theorem stop_after_stop (w : world OS) :
  fst (stop_server w) = Ok true ->
  stop_server (snd (stop_server w)) =
    (Ok false,
     mk_world (fs (snd (stop_server w))) (os (snd (stop_server w)))
       (log (snd (stop_server w)) ++ [EPrint "WARNING: Server is not running"])).
Proof.
  intros Ht. destruct (stop_server_true_inv w Ht) as [Hf _].
  apply stop_server_not_running. apply get_server_pid_absent. exact Hf.
Qed.

End StopMore.

(** ** The foreground launch *)
Section Foreground.
Context {OS : Type} `{H : Host OS}.










End Foreground.


(** ** More on starting *)
Section StartMore.
Context {OS : Type} `{H : Host OS}.

(** X9.  Without [--go], a start with no live process and no executable
    prints the build hint and returns [False]; it makes no directory, spawns
    nothing and writes nothing. *)
Theorem start_server_needs_executable (foreground : bool) (w w0 : world OS) :
  get_server_pid w = (Ok None, w0) ->
  server_exe (fs w0) = false ->
  start_server foreground false w =
    (Ok false,
     mk_world (fs w0) (os w0)
       (log w0 ++
        [EPrint ("ERROR: Server executable not found: " ++ SERVER_EXECUTABLE)%string;
         EPrint "   Please build the server first with: make build";
         EPrint "   Or start from source with: python server_control.py start --go"])).
Proof.
  intros Hg Hexe. unfold start_server, bind at 1.
  rewrite (is_server_running_none w w0 Hg).
  unfold bind, server_executable_exists, print, emit, ret. cbn.
  rewrite Hexe. cbn. repeat (rewrite <- app_assoc; cbn [app]). reflexivity.
Qed.

Lemma emits_start_foreground (use_go : bool) :
  emits (launch_event true use_go) (start_foreground use_go).
Proof.
  unfold start_foreground, guarded_wait, Popen, wait.
  apply emits_bind; [emits_all | intros _].
  apply emits_bind; [emits_all | intros _].
  apply emits_bind; [emits_all | intros pid].
  apply emits_bind; [emits_all | intros _].
  apply emits_bind; [| intros _; emits_all].
  apply emits_try_finally; [| emits_all].
  apply emits_try_except; [emits_all | intros e].
  apply emits_bind; [emits_all | intros _].
  apply emits_bind; [| intros _; emits_all].
  apply (emits_weaken stop_event); [| apply emits_stop_server].
  intros [] Hev; cbn in *; tauto.
Qed.

(** X10.  Whatever happens, [start_server] spawns nothing but the
    configured command ([go run ./cmd/server] with [--go], the executable
    otherwise) in [SERVER_DIR], with the output on pipes exactly in
    background mode.  Only a foreground start waits for the child or sends
    it a signal; only a background start polls it or reads its pipes. *)
Theorem start_server_launch_discipline (foreground use_go : bool) (w : world OS) :
  exists d,
    log (snd (start_server foreground use_go w)) = log w ++ d /\
    Forall (launch_event foreground use_go) d.
Proof.
  revert w. change (emits (launch_event foreground use_go) (start_server foreground use_go)).
  unfold start_server, is_server_running.
  apply emits_bind.
  { apply emits_bind; [apply emits_get_server_pid; cbn; auto | intros ?; emits_all]. }
  intros [|].
  - apply emits_bind; [apply emits_get_server_pid; cbn; auto | intros ?; emits_all].
  - apply emits_bind; [emits_all | intros [|]]; [emits_all |].
    apply emits_bind; [emits_all | intros _].
    apply emits_bind; [emits_all | intros _].
    apply emits_try_except; [| intros e; emits_all].
    destruct foreground.
    + apply emits_start_foreground.
    + apply emits_start_background; cbn; auto.
Qed.

End StartMore.

(** ** The record after a background start *)
Section BackgroundMore.
Context {OS : Type} `{H : Host OS}.

(** What [start_background] leaves behind, by its result. *)
Lemma start_background_cases (use_go : bool) (F : filesys) (o : OS) (L : list event)
    (r : result bool) (w' : world OS) :
  start_background use_go (mk_world F o L) = (r, w') ->
  match r with
  | Ok true =>
      exists p f,
        fst (subprocess_Popen
               (mk_popen (launch_command use_go) SERVER_DIR true true launch_flags) o)
          = Ok p /\
        pid_file (fs w') = Some f /\ data f = str p /\
        In (EWrite (str p)) (log w')
  | Ok false => pid_file (fs w') = None
  | Raise e => True
  end.
Proof.
  unfold start_background, bind, Popen, sleep, poll, communicate, call,
    decode, print, emit, ret, raise.
  cbn [fs os log].
  destruct (subprocess_Popen _ o) as [[p | e] o1]; cbv beta iota; cbn [fst fs os log];
    [| intros E; injection E as <- <-; exact I].
  destruct (can_write F) eqn:Hown;
    [rewrite (pid_file_write_ok _ _ _ _ Hown)
    | rewrite (pid_file_write_locked _ _ _ _ Hown);
      intros E; injection E as <- <-; exact I].
  cbv beta iota; cbn [fs os log].
  destruct (time_sleep 2 o1) as [[[] | e] o2]; cbv beta iota; cbn [fs os log];
    [| intros E; injection E as <- <-; exact I].
  destruct (process_poll p o2) as [[[c |] | e] o3]; cbv beta iota; cbn [fs os log].
  - destruct (process_communicate p o3) as [[[out err] | e] o4];
      cbv beta iota; cbn [fs os log snd];
      [| intros E; injection E as <- <-; exact I].
    destruct (nonempty err).
    + destruct (bytes_decode err) as [s | e]; cbv beta iota; cbn [fs os log].
      * rewrite pid_file_unlink_true. cbn [fs os log can_unlink pid_file removable].
        destruct (can_unlink F); intros E; injection E as <- <-;
          [reflexivity | exact I].
      * intros E. injection E as <- <-. exact I.
    + cbv beta iota. rewrite pid_file_unlink_true.
      cbn [fs os log can_unlink pid_file removable].
      destruct (can_unlink F); intros E; injection E as <- <-;
        [reflexivity | exact I].
  - intros E. injection E as <- <-. cbn [fs log pid_file].
    exists p. eexists. split; [reflexivity | split; [reflexivity | split; [reflexivity |]]].
    repeat (rewrite <- app_assoc; cbn [app]).
    apply in_or_app. right. cbn. auto.
  - intros E. injection E as <- <-. exact I.
Qed.

(** X11.  Past its checks, and whatever the operating system does, a
    background start that returns [False] leaves no record file, and one
    that returns [True] leaves a record holding the decimal pid of the child
    it spawned. *)
Theorem background_start_result_matches_record (use_go : bool) (w w0 : world OS) :
  get_server_pid w = (Ok None, w0) ->
  use_go = true \/ server_exe (fs w0) = true ->
  (fst (start_server false use_go w) = Ok false ->
   pid_file (fs (snd (start_server false use_go w))) = None) /\
  (fst (start_server false use_go w) = Ok true ->
   exists p f,
     fst (subprocess_Popen
            (mk_popen (launch_command use_go) SERVER_DIR true true launch_flags) (os w0))
       = Ok p /\
     pid_file (fs (snd (start_server false use_go w))) = Some f /\
     data f = str p /\
     In (EWrite (str p)) (log (snd (start_server false use_go w)))).
Proof.
  intros Hg Hexe.
  rewrite (start_server_launch false use_go w w0 Hg Hexe). cbv iota.
  destruct (start_background use_go _) as [r w2] eqn:E.
  pose proof (start_background_cases use_go _ _ _ _ _ E) as Hc.
  destruct r as [[|] | e]; cbn [fst snd].
  - split; [discriminate | intros _; exact Hc].
  - split; [intros _; exact Hc | discriminate].
  - destruct (is_Exception e); [destruct (can_unlink (fs w2)) |];
      cbn [fst snd fs pid_file];
      (split; [| discriminate]); [reflexivity | discriminate | discriminate].
Qed.






End BackgroundMore.

(** ** The status report *)
Section StatusMore.
Context {OS : Type} `{H : Host OS}.

Lemma only_clears_status_server : only_clears status_server.
Proof.
  unfold status_server.
  apply only_clears_bind; [apply only_clears_get_server_pid | intros [pid |]];
    repeat (apply only_clears_bind; [apply only_clears_print | intros _]);
    apply only_clears_print.
Qed.

Lemma emits_status_server : emits status_event status_server.
Proof.
  unfold status_server.
  apply emits_bind; [apply emits_get_server_pid; cbn; auto | intros pid].
  emits_all.
Qed.

(** X15.  A status report reads and prints: besides printing, all it does
    is probe with signal 0 and remove a stale record; it never sends a real
    signal, spawns or writes.  On a live process it prints RUNNING with the
    pid and leaves the file system untouched. *)
Theorem status_server_only_reads (w : world OS) :
  fs_le (fs (snd (status_server w))) (fs w) /\
  (exists d,
     log (snd (status_server w)) = log w ++ d /\ Forall status_event d) /\
  (forall n o,
     live w n o ->
     status_server w =
       (Ok tt,
        mk_world (fs w) o
          (log w ++ [EKill n 0;
                     EPrint "Server Status: RUNNING";
                     EPrint ("   PID: " ++ str n)%string;
                     EPrint "   Backend: http://localhost:8080";
                     EPrint ("   Logs: " ++ LOGS_ACTIVITY)%string]))).
Proof.
  split; [apply only_clears_status_server | split; [apply emits_status_server |]].
  intros n o [f Hf Hr Hp Hk].
  unfold status_server, bind at 1.
  rewrite (get_server_pid_live w f n o Hf Hr Hp Hk).
  unfold bind, print, emit. cbn [fs os log].
  repeat (rewrite <- app_assoc; cbn [app]). reflexivity.
Qed.

End StatusMore.

(** ** The log viewer *)
Section ViewerFacts.
Context {OS : Type} `{H : Host OS} `{D : LogDir OS}.

Lemma exn_caught (e : exn) : is_KeyboardInterrupt e = false -> is_Exception e = true.
Proof. unfold is_KeyboardInterrupt, is_Exception. destruct (exn_cls e); auto. Qed.

Lemma observe_silent {A} (f : OS -> result A) (w : world OS) :
  snd (observe f w) = w.
Proof. reflexivity. Qed.

Lemma max_scan_silent (rest : list log_path) (best : log_path) (key : Q) (w : world OS) :
  snd (max_scan best key rest w) = w.
Proof.
  revert best key. induction rest as [| p rest IH]; intros best key; cbn [max_scan].
  - reflexivity.
  - unfold bind, observe.
    destruct (path_mtime p (os w)) as [k | e]; [| reflexivity].
    destruct (newer k key); apply IH.
Qed.

Lemma latest_silent (files : list log_path) (w : world OS) :
  snd (latest files w) = w.
Proof.
  destruct files as [| p rest]; [reflexivity |].
  unfold latest, bind, observe.
  destruct (path_mtime p (os w)) as [k | e]; [| reflexivity].
  apply max_scan_silent.
Qed.

Lemma emits_try_except_gen {A} (P : event -> Prop) (m : M OS A)
    (h : exn -> option (M OS A)) :
  emits P m -> (forall e k, h e = Some k -> emits P k) ->
  emits P (try_except m h).
Proof.
  intros Hm Hh w. unfold try_except.
  destruct (Hm w) as [d1 [E1 F1]].
  destruct (m w) as [[a | e] w1]; cbn in E1.
  - exists d1. cbn. auto.
  - destruct (h e) as [k |] eqn:Ek.
    + destruct (Hh e k Ek w1) as [d2 [E2 F2]].
      exists (d1 ++ d2). rewrite E2, E1, app_assoc.
      split; [reflexivity | apply Forall_app; auto].
    + exists d1. cbn. auto.
Qed.

Lemma emits_show_logs (pid : option Z) : emits viewer_event (show_logs pid).
Proof.
  unfold show_logs. destruct win32 eqn:Hw; [| emits_all].
  apply emits_bind; [apply emits_silent, observe_silent | intros present].
  apply emits_bind.
  { destruct present; [apply emits_silent, observe_silent | apply emits_ret]. }
  intros [| p files]; [emits_all |].
  apply emits_bind; [apply emits_silent, latest_silent | intros best].
  apply emits_bind; [emits_all | intros _].
  unfold run. apply emits_call. cbn. split; [exact Hw | exists best; reflexivity].
Qed.

Lemma only_clears_show_logs (pid : option Z) : only_clears (show_logs pid).
Proof.
  unfold show_logs. destruct win32.
  - apply only_clears_bind; [apply only_clears_silent, observe_silent | intros present].
    apply only_clears_bind.
    { destruct present; [apply only_clears_silent, observe_silent | apply only_clears_ret]. }
    intros [| p files].
    + repeat (apply only_clears_bind; [apply only_clears_print | intros _]).
      apply only_clears_print.
    + apply only_clears_bind; [apply only_clears_silent, latest_silent | intros best].
      apply only_clears_bind; [apply only_clears_print | intros _].
      apply only_clears_call.
  - repeat (apply only_clears_bind; [apply only_clears_print | intros _]).
    apply only_clears_print.
Qed.

(** X16.  With no live process [view_logs] prints the warning and the hint
    and returns [False]; it looks at no log file and runs no viewer. *)
Theorem view_logs_not_running (w w0 : world OS) :
  get_server_pid w = (Ok None, w0) ->
  view_logs w =
    (Ok false,
     mk_world (fs w0) (os w0)
       (log w0 ++ [EPrint "WARNING: Server is not running";
                   EPrint "   Start it with: python server_control.py start"])).
Proof.
  intros Hg. unfold view_logs, bind at 1.
  rewrite (is_server_running_none w w0 Hg).
  unfold bind, print, emit, ret. cbn.
  rewrite <- app_assoc. reflexivity.
Qed.

(** X17.  [view_logs] never signals, spawns or writes: besides printing and
    reading the record, the only thing it may run is the PowerShell tail of
    one log file, and that only on Windows.  The file system afterwards is
    as before or without a stale record. *)
Theorem view_logs_only_views (w : world OS) :
  fs_le (fs (snd (view_logs w))) (fs w) /\
  exists d,
    log (snd (view_logs w)) = log w ++ d /\ Forall viewer_event d.
Proof.
  split.
  - revert w. change (only_clears view_logs).
    unfold view_logs, is_server_running.
    apply only_clears_bind.
    { apply only_clears_bind; [apply only_clears_get_server_pid | intros ?].
      apply only_clears_ret. }
    intros [|]; cbn [negb].
    + apply only_clears_bind; [apply only_clears_get_server_pid | intros pid].
      repeat (apply only_clears_bind; [apply only_clears_print | intros _]).
      apply only_clears_bind; [| intros _; apply only_clears_ret].
      apply only_clears_try_except; [apply only_clears_show_logs |].
      intros e k Hk. destruct (is_KeyboardInterrupt e); [| destruct (is_Exception e)];
        try discriminate Hk; injection Hk as <-; apply only_clears_print.
    + repeat (apply only_clears_bind; [apply only_clears_print | intros _]).
      apply only_clears_ret.
  - revert w. change (emits viewer_event view_logs).
    unfold view_logs, is_server_running.
    apply emits_bind.
    { apply emits_bind; [apply emits_get_server_pid; cbn; auto | intros ?; emits_all]. }
    intros [|]; cbn [negb]; [| emits_all].
    apply emits_bind; [apply emits_get_server_pid; cbn; auto | intros pid].
    apply emits_bind; [emits_all | intros _].
    apply emits_bind; [emits_all | intros _].
    apply emits_bind; [emits_all | intros _].
    apply emits_bind; [| intros _; emits_all].
    apply emits_try_except_gen; [apply emits_show_logs |].
    intros e k Hk. destruct (is_KeyboardInterrupt e); [| destruct (is_Exception e)];
      try discriminate Hk; injection Hk as <-; emits_all.
Qed.

End ViewerFacts.

(** ** Choosing the latest log *)
Section Latest.
Context {OS : Type} `{H : Host OS} `{D : LogDir OS}.
Variable t : log_path -> Q.
Variable w : world OS.

(** The scan keeps the first item of greatest key among those seen. *)
Lemma max_scan_spec (rest before : list log_path) (best : log_path)
    (after : list log_path) :
  (forall p, In p rest -> path_mtime p (os w) = Ok (t p)) ->
  (forall p, In p before -> (t p < t best)%Q) ->
  (forall p, In p after -> (t p <= t best)%Q) ->
  exists before' best' after',
    before ++ best :: after ++ rest = before' ++ best' :: after' /\
    max_scan best (t best) rest w = (Ok best', w) /\
    (forall p, In p before' -> (t p < t best')%Q) /\
    (forall p, In p after' -> (t p <= t best')%Q).
Proof.
  revert before best after.
  induction rest as [| p rest IH]; intros before best after Hm Hb Ha.
  - exists before, best, after. rewrite app_nil_r. cbn. auto.
  - cbn [max_scan]. unfold bind, observe.
    rewrite (Hm p (or_introl eq_refl)).
    assert (Hm' : forall q, In q rest -> path_mtime q (os w) = Ok (t q)).
    { intros q Hq. apply Hm. right. exact Hq. }
    unfold newer. destruct (Qle_bool (t p) (t best)) eqn:Hle; cbn [negb].
    + apply Qle_bool_iff in Hle.
      destruct (IH before best (after ++ [p]) Hm' Hb) as [b' [x' [a' [E R]]]].
      { intros q Hq. apply in_app_or in Hq. destruct Hq as [Hq | [<- | []]]; auto. }
      exists b', x', a'. split; [| exact R].
      rewrite <- E, <- app_assoc. reflexivity.
    + assert (Hlt : (t best < t p)%Q).
      { apply Qnot_le_lt. intros Hc. apply Qle_bool_iff in Hc. congruence. }
      destruct (IH (before ++ best :: after) p [] Hm') as [b' [x' [a' [E R]]]].
      { intros q Hq. apply in_app_or in Hq. destruct Hq as [Hq | [<- | Hq]].
        - eapply Qlt_trans; [apply Hb; exact Hq | exact Hlt].
        - exact Hlt.
        - eapply Qle_lt_trans; [apply Ha; exact Hq | exact Hlt]. }
      { intros q []. }
      exists b', x', a'. split; [| exact R].
      rewrite <- E, <- app_assoc. reflexivity.
Qed.

Lemma latest_spec (files : list log_path) :
  files <> [] ->
  (forall p, In p files -> path_mtime p (os w) = Ok (t p)) ->
  exists before best after,
    files = before ++ best :: after /\
    latest files w = (Ok best, w) /\
    (forall p, In p files -> (t p <= t best)%Q) /\
    (forall p, In p before -> (t p < t best)%Q).
Proof.
  intros Hne Hm. destruct files as [| p rest]; [contradiction |].
  unfold latest, bind, observe. rewrite (Hm p (or_introl eq_refl)).
  destruct (max_scan_spec rest [] p []) as [b [x [a [E [R [Hb Ha]]]]]].
  - intros q Hq. apply Hm. right. exact Hq.
  - intros q [].
  - intros q [].
  - cbn [app] in E. exists b, x, a.
    split; [exact E | split; [exact R | split; [| exact Hb]]].
    intros q Hq. rewrite E in Hq. apply in_app_or in Hq.
    destruct Hq as [Hq | [<- | Hq]].
    + apply Qlt_le_weak. apply Hb. exact Hq.
    + apply Qle_refl.
    + apply Ha. exact Hq.
Qed.

(** X18.  The file chosen for tailing is the most recently modified one:
    when every modification time can be read, [latest] returns a file of the
    list whose time is at least that of every other, and among several of
    that time the one listed first; it changes nothing. *)
Theorem latest_is_newest (files : list log_path) :
  files <> [] ->
  (forall p, In p files -> path_mtime p (os w) = Ok (t p)) ->
  exists before best after,
    files = before ++ best :: after /\
    latest files w = (Ok best, w) /\
    (forall p, In p files -> (t p <= t best)%Q) /\
    (forall p, In p before -> (t p < t best)%Q).
Proof. exact (latest_spec files). Qed.

End Latest.

Section ViewerRuns.
Context {OS : Type} `{H : Host OS} `{D : LogDir OS}.

(** The end of [view_logs] once the process is known to run. *)
Lemma view_logs_running (w : world OS) (n : Z) (o : OS) (pid : option Z) (w2 : world OS) :
  live w n o ->
  get_server_pid (mk_world (fs w) o (log w ++ [EKill n 0])) = (Ok pid, w2) ->
  view_logs w =
    match show_logs pid
            (mk_world (fs w2) (os w2)
               (log w2 ++ [EPrint ("Viewing server console output (PID: "
                                   ++ str_opt pid ++ ")")%string;
                           EPrint "   Press Ctrl+C to stop viewing";
                           EPrint (str_mul "-" 60)]))
    with
    | (Ok _, w3) => (Ok true, w3)
    | (Raise e, w3) =>
        (Ok true,
         mk_world (fs w3) (os w3)
           (log w3 ++ [EPrint (if is_KeyboardInterrupt e
                               then String "010" (String "010" "Stopped viewing logs")
                               else ("ERROR: Error viewing logs: " ++ exn_msg e)%string)]))
    end.
Proof.
  intros Hl Hg. unfold view_logs, bind at 1.
  rewrite (is_server_running_live w n o Hl). cbn [negb].
  unfold bind at 1. rewrite Hg.
  unfold bind at 1, print at 1, emit at 1.
  unfold bind at 1, print at 1, emit at 1.
  unfold bind at 1, print at 1, emit at 1. cbn [fs os log].
  repeat (rewrite <- app_assoc; cbn [app]).
  unfold bind, try_except, ret.
  destruct (show_logs pid _) as [[[] | e] w3]; [reflexivity |].
  destruct (is_KeyboardInterrupt e) eqn:Hk; [reflexivity |].
  rewrite (exn_caught e Hk). reflexivity.
Qed.

(** X19.  Once the server is known to run, [view_logs] returns [True]
    whatever happens while viewing: a missing directory, a failing viewer
    or a Ctrl+C ends in a message, not in an exception. *)
Theorem view_logs_survives_the_viewer
    (w : world OS) (n : Z) (o : OS) (pid : option Z) (w2 : world OS) :
  live w n o ->
  get_server_pid (mk_world (fs w) o (log w ++ [EKill n 0])) = (Ok pid, w2) ->
  fst (view_logs w) = Ok true.
Proof.
  intros Hl Hg. rewrite (view_logs_running w n o pid w2 Hl Hg).
  destruct (show_logs pid _) as [[[] | e] w3]; reflexivity.
Qed.

(** X20.  On Windows, with the server running and log files whose times
    can be read, [view_logs] announces and tails the most recently modified
    log file (the first listed among several of that time) and returns
    [True]. *)
Theorem view_logs_tails_newest
    (w : world OS) (n : Z) (o o' : OS) (files : list log_path) (t : log_path -> Q) :
  win32 = true ->
  live w n o ->
  live (mk_world (fs w) o (log w ++ [EKill n 0])) n o' ->
  logs_dir_exists o' = Ok true ->
  logs_dir_glob o' = Ok files ->
  files <> [] ->
  (forall p, In p files -> path_mtime p o' = Ok (t p)) ->
  exists before best after tail,
    files = before ++ best :: after /\
    (forall p, In p files -> (t p <= t best)%Q) /\
    (forall p, In p before -> (t p < t best)%Q) /\
    fst (view_logs w) = Ok true /\
    log (snd (view_logs w)) =
      log w ++ [EKill n 0; EKill n 0;
                EPrint ("Viewing server console output (PID: " ++ str n ++ ")")%string;
                EPrint "   Press Ctrl+C to stop viewing";
                EPrint (str_mul "-" 60);
                EPrint ("Tailing: " ++ path_name best ++ String "010" "")%string;
                ERun (tail_command best)] ++ tail /\
    Forall quiet tail.
Proof.
  intros Hw Hl1 Hl2 Hex Hgl Hne Hm.
  destruct Hl2 as [f Hf Hr Hp Hk].
  pose proof (get_server_pid_live _ f n o' Hf Hr Hp Hk) as Hg.
  rewrite (view_logs_running w n o (Some n) _ Hl1 Hg).
  cbn [fs os log str_opt].
  set (W := mk_world (fs w) o' _).
  destruct (latest_spec t W files Hne Hm) as [b [x [a [E [R [Hall Hb]]]]]].
  assert (Hs : show_logs (Some n) W =
               let (r, o3) := subprocess_run (tail_command x) o' in
               (r, mk_world (fs w) o3
                     (log W ++ [EPrint ("Tailing: " ++ path_name x ++ String "010" "")%string;
                                ERun (tail_command x)]))).
  { unfold show_logs. rewrite Hw.
    unfold bind, observe, print, emit, run, call.
    change (os W) with o'. rewrite Hex. cbv beta iota.
    change (os W) with o'. rewrite Hgl. cbv beta iota.
    destruct files as [| p0 rest]; [contradiction |].
    rewrite R. cbv beta iota. cbn [fs os log].
    change (os W) with o'. change (fs W) with (fs w).
    destruct (subprocess_run (tail_command x) o') as [r o3].
    rewrite <- app_assoc. reflexivity. }
  rewrite Hs. exists b, x, a.
  destruct (subprocess_run (tail_command x) o') as [[[] | e] o3].
  - exists []. rewrite app_nil_r. cbn [fst snd log]. subst W. cbn [log].
    split; [exact E | split; [exact Hall | split; [exact Hb | split; [reflexivity |]]]].
    split; [| constructor].
    repeat (rewrite <- app_assoc; cbn [app]). reflexivity.
  - eexists. cbn [fst snd log]. subst W. cbn [log].
    split; [exact E | split; [exact Hall | split; [exact Hb | split; [reflexivity |]]]].
    split; [repeat (rewrite <- app_assoc; cbn [app]); reflexivity |].
    repeat constructor.
Qed.

End ViewerRuns.

(** ** The command line *)
Section CommandLineFacts.
Context {OS : Type} `{H : Host OS} `{D : LogDir OS}.

Lemma lower_ascii_idem (c : ascii) : lower_ascii (lower_ascii c) = lower_ascii c.
Proof. destruct c as [[] [] [] [] [] [] [] []]; reflexivity. Qed.

Lemma lower_idem (s : string) : lower (lower s) = lower s.
Proof.
  induction s as [| c s IH]; cbn [lower]; [reflexivity |].
  rewrite lower_ascii_idem, IH. reflexivity.
Qed.

Lemma foreground_flag_lower (f : string) :
  is_foreground_flag (lower f) = is_foreground_flag f.
Proof. unfold is_foreground_flag. rewrite lower_idem. reflexivity. Qed.

Lemma go_flag_lower (f : string) : is_go_flag (lower f) = is_go_flag f.
Proof. unfold is_go_flag. rewrite lower_idem. reflexivity. Qed.

(** The loop over the flags only ever raises its two variables. *)
Lemma scan_flags_from (flags : list string) (fg go : bool) :
  fold_left
    (fun acc flag =>
       let flag := lower flag in
       (if str_in flag FOREGROUND_FLAGS then true else fst acc,
        if str_in flag GO_FLAGS then true else snd acc))
    flags (fg, go) =
  (fg || existsb is_foreground_flag flags, go || existsb is_go_flag flags).
Proof.
  revert fg go. induction flags as [| f flags IH]; intros fg go; cbn [fold_left existsb].
  - rewrite !orb_false_r. reflexivity.
  - cbv zeta. cbn [fst snd]. rewrite IH. unfold is_foreground_flag, is_go_flag.
    destruct (str_in (lower f) FOREGROUND_FLAGS), (str_in (lower f) GO_FLAGS);
      cbn [orb]; rewrite ?orb_true_r; reflexivity.
Qed.

Lemma scan_flags_spec (flags : list string) :
  scan_flags flags = (existsb is_foreground_flag flags, existsb is_go_flag flags).
Proof. unfold scan_flags. rewrite scan_flags_from. reflexivity. Qed.

Lemma dict_get_commands (c : string) (foreground use_go : bool) :
  str_in c KNOWN_COMMANDS = false <->
  dict_get c (commands foreground use_go) = None.
Proof.
  unfold str_in, KNOWN_COMMANDS, commands. cbn [existsb dict_get].
  repeat match goal with
         | |- context [String.eqb c ?k] => destruct (String.eqb c k)
         end; cbn; split; intros E; (reflexivity || discriminate E).
Qed.

(** [main] with a command: the flags are scanned only for [start]. *)
Lemma main_command (a0 c : string) (rest : list string) :
  main (a0 :: c :: rest) =
    let flags := if String.eqb (lower c) "start"
                 then (existsb is_foreground_flag rest, existsb is_go_flag rest)
                 else (false, false) in
    match dict_get (lower c) (commands (fst flags) (snd flags)) with
    | Some f => f ;;; ret None
    | None =>
        print ("ERROR: Unknown command: " ++ lower c) ;;;
        print "   Use 'python server_control.py help' for usage information" ;;;
        ret (Some 1)
    end.
Proof.
  unfold main. cbn [List.length nth skipn Nat.ltb Nat.leb].
  destruct (String.eqb (lower c) "start"); cbn [andb]; [| reflexivity].
  destruct rest as [| f rest]; cbn [List.length Nat.ltb Nat.leb].
  - reflexivity.
  - rewrite scan_flags_spec. reflexivity.
Qed.

(** X21.  [start] and its options.  The command is looked at in lower case;
    the launch is in the foreground exactly when one of the options is
    [--foreground], [-f] or [foreground], and from source exactly when one
    is [--go], [-g], [go] or [--source], in any letter case; the order,
    repetitions and unknown options do not matter, and [main] returns
    normally whatever the start returns. *)
Theorem main_start (a0 c : string) (flags : list string) (w : world OS) :
  lower c = "start" ->
  main (a0 :: c :: flags) w =
    match start_server (existsb is_foreground_flag flags)
                       (existsb is_go_flag flags) w with
    | (Ok _, w') => (Ok None, w')
    | (Raise e, w') => (Raise e, w')
    end.
Proof.
  intros Hc. rewrite main_command, Hc. cbn.
  unfold bind, ret.
  destruct (start_server _ _ w) as [[b | e] w']; reflexivity.
Qed.

Lemma main_unknown (a0 c : string) (rest : list string) (w : world OS) :
  str_in (lower c) KNOWN_COMMANDS = false ->
  main (a0 :: c :: rest) w =
    (Ok (Some 1),
     mk_world (fs w) (os w)
       (log w ++ [EPrint ("ERROR: Unknown command: " ++ lower c)%string;
                  EPrint "   Use 'python server_control.py help' for usage information"])).
Proof.
  intros Hu. rewrite main_command. cbv zeta.
  rewrite (proj1 (dict_get_commands (lower c) _ _) Hu).
  unfold bind, print, emit, ret. cbn. rewrite <- app_assoc. reflexivity.
Qed.

(** X22.  An unknown command written in ASCII is reported, in lower case,
    and ends the script with exit code 1; nothing is read, signalled,
    spawned or written. *)
Theorem main_unknown_command_exits_1 (a0 c : string) (rest : list string) (w : world OS) :
  isascii c = true ->
  str_in (lower c) KNOWN_COMMANDS = false ->
  main (a0 :: c :: rest) w =
    (Ok (Some 1),
     mk_world (fs w) (os w)
       (log w ++ [EPrint ("ERROR: Unknown command: " ++ lower c)%string;
                  EPrint "   Use 'python server_control.py help' for usage information"])).
Proof. intros _. exact (main_unknown a0 c rest w). Qed.

(** X23.  [sys.exit] is reached for an unknown command only: when [main]
    exits with a code, the code is 1, a command was given, it is not one of
    the known ones, and the world was not touched.  A known command never
    exits with a code, not even when the operation it runs fails. *)
Theorem main_exit_code_means_unknown (argv : list string) (w : world OS) (code : Z) :
  fst (main argv w) = Ok (Some code) ->
  code = 1 /\
  fs (snd (main argv w)) = fs w /\ os (snd (main argv w)) = os w /\
  exists a0 c rest,
    argv = a0 :: c :: rest /\ str_in (lower c) KNOWN_COMMANDS = false.
Proof.
  destruct argv as [| a0 [| c rest]].
  - unfold main. cbn. unfold bind, ret.
    destruct (status_server w) as [[[] | e] w']; cbn; discriminate.
  - unfold main. cbn. unfold bind, ret.
    destruct (status_server w) as [[[] | e] w']; cbn; discriminate.
  - destruct (str_in (lower c) KNOWN_COMMANDS) eqn:Hk.
    + rewrite main_command. cbv zeta.
      destruct (dict_get (lower c) _) as [f |] eqn:Hd.
      * unfold bind, ret. destruct (f w) as [[[] | e] w']; cbn; discriminate.
      * apply dict_get_commands in Hd. congruence.
    + rewrite (main_unknown a0 c rest w Hk). cbn. intros E. injection E as <-.
      repeat split. exists a0, c, rest. auto.
Qed.

(** X24.  Commands and options are case-insensitive: putting them in lower
    case changes nothing. *)
Theorem main_case_insensitive (a0 c : string) (rest : list string) (w : world OS) :
  main (a0 :: c :: rest) w = main (a0 :: lower c :: map lower rest) w.
Proof.
  rewrite !main_command, lower_idem.
  assert (E1 : existsb is_foreground_flag (map lower rest)
               = existsb is_foreground_flag rest).
  { clear. induction rest as [| f r IH]; cbn [map existsb]; [reflexivity |].
    rewrite IH, foreground_flag_lower. reflexivity. }
  assert (E2 : existsb is_go_flag (map lower rest) = existsb is_go_flag rest).
  { clear. induction rest as [| f r IH]; cbn [map existsb]; [reflexivity |].
    rewrite IH, go_flag_lower. reflexivity. }
  rewrite E1, E2. reflexivity.
Qed.

(** X25.  Options matter to [start] only: after any other command they are
    ignored, so [restart --foreground] is a plain restart. *)
Theorem main_options_only_for_start (a0 c : string) (rest : list string) (w : world OS) :
  lower c <> "start" ->
  main (a0 :: c :: rest) w = main [a0; c] w.
Proof.
  intros Hc. rewrite !main_command.
  destruct (String.eqb (lower c) "start") eqn:E; [| reflexivity].
  apply String.eqb_eq in E. contradiction.
Qed.

(** X26.  [help], [--help] and [-h], in any letter case and whatever
    follows them, print the usage text and do nothing else. *)
Theorem main_help (a0 c : string) (rest : list string) (w : world OS) :
  str_in (lower c) ["help"; "--help"; "-h"] = true ->
  main (a0 :: c :: rest) w =
    (Ok None, mk_world (fs w) (os w) (log w ++ [EPrint HELP_TEXT])).
Proof.
  intros Hc. rewrite main_command.
  unfold str_in in Hc. cbn [existsb] in Hc.
  destruct (String.eqb (lower c) "help") eqn:E1.
  { apply String.eqb_eq in E1. rewrite E1. reflexivity. }
  destruct (String.eqb (lower c) "--help") eqn:E2.
  { apply String.eqb_eq in E2. rewrite E2. reflexivity. }
  destruct (String.eqb (lower c) "-h") eqn:E3; [| discriminate Hc].
  apply String.eqb_eq in E3. rewrite E3. reflexivity.
Qed.

End CommandLineFacts.

(** ** The claims at concrete worlds *)
Section Instances.
Import Sim.

Lemma C1_stale_record_self_heals_witness :
  (fst (get_server_pid (H := linux) stale_record) = Ok None /\
   pid_file (fs (snd (get_server_pid (H := linux) stale_record))) = None) /\
  fst (status_server (H := linux) stale_record) = Ok tt /\
  pid_file (fs (snd (status_server (H := linux) stale_record))) = None.
Proof.
  destruct (C1_stale_record_self_heals (H := linux) stale_record
              999999999 (machine [])
              (stale_record_intro (H := linux) stale_record 999999999 _
                 (mk_file true "999999999")
                 (mk_exn ProcessLookupError "No such process")
                 eq_refl eq_refl eq_refl eq_refl eq_refl))
    as [[A1 [_ [A2 _]]] [B [C _]]].
  split; [split; [exact A1 | exact (A2 eq_refl)] | split; [exact B | exact (C eq_refl)]].
Defined.

(** C1 as stated fails: the record is stale and cannot be unlinked; the
    read returns [None], the failed unlink is swallowed, and the record
    file is still there afterwards. *)
Lemma C1_counterexample :
  stale (H := linux) pinned_stale 999999999 (machine []) /\
  fst (get_server_pid (H := linux) pinned_stale) = Ok None /\
  In EUnlink (log (snd (get_server_pid (H := linux) pinned_stale))) /\
  pid_file (fs (snd (get_server_pid (H := linux) pinned_stale))) =
    pid_file (fs pinned_stale) /\
  pid_file (fs (snd (get_server_pid (H := linux) pinned_stale))) <> None /\
  pid_file (fs (snd (status_server (H := linux) pinned_stale))) <> None.
Proof.
  split.
  { exact (stale_record_intro (H := linux) pinned_stale 999999999 _
             (mk_record true true false "999999999")
             (mk_exn ProcessLookupError "No such process")
             eq_refl eq_refl eq_refl eq_refl eq_refl). }
  split; [reflexivity |].
  split; [cbn; auto |].
  split; [reflexivity |].
  split; intros A; discriminate A.
Qed.

(** C2 as stated fails: the record exists and cannot be read, the read
    raises, and yet [get_server_pid] returns [None] instead of raising. *)
Lemma C2_counterexample :
  pid_file (fs locked_record) = Some (mk_file false "77") /\
  fst (pid_file_read locked_record) =
    Raise (mk_exn PermissionError "Permission denied") /\
  fst (get_server_pid (H := linux) locked_record) = Ok None /\
  ~ (exists e, fst (get_server_pid (H := linux) locked_record) = Raise e).
Proof.
  repeat split; try reflexivity.
  intros [e He]. discriminate He.
Qed.

Lemma C2_unreadable_record_reads_as_none_witness :
  fst (pid_file_read locked_record) =
    Raise (mk_exn PermissionError "Permission denied") /\
  get_server_pid (H := linux) locked_record = (Ok None, locked_record).
Proof.
  exact (C2_unreadable_record_reads_as_none (H := linux) locked_record
           (mk_file false "77") eq_refl eq_refl).
Defined.

(** C3 as stated fails: the request raises [PermissionError], the stop is
    reported as failed, and the record file is still there. *)
Lemma C3_counterexample :
  fst (os_kill (Host := linux) 77 SIGTERM (os protected)) =
    Raise (mk_exn PermissionError "Operation not permitted") /\
  fst (stop_server (H := linux) protected) = Ok false /\
  pid_file (fs (snd (stop_server (H := linux) protected))) = record_of "77" /\
  pid_file (fs (snd (stop_server (H := linux) protected))) <> None.
Proof.
  repeat split; try reflexivity.
  intros A. discriminate A.
Qed.

Lemma C3_failed_request_keeps_record_witness :
  fst (stop_server (H := linux) protected) = Ok false /\
  fs (snd (stop_server (H := linux) protected)) = fs protected /\
  pid_file (fs (snd (stop_server (H := linux) protected))) = record_of "77".
Proof.
  destruct (C3_failed_request_keeps_record (H := linux) protected
              77 (os protected) (os protected)
              (mk_exn PermissionError "Operation not permitted")
              (live_record (H := linux) protected 77 _ (mk_file true "77")
                 eq_refl eq_refl eq_refl eq_refl)
              (first_fails (H := linux) 77 (os protected) _ (os protected) eq_refl)
              eq_refl)
    as [A [B _]].
  split; [exact A | split; [exact B | rewrite B; reflexivity]].
Defined.

Lemma C4_start_refused_when_running_witness :
  start_server (H := linux) false false running =
    (Ok false,
     mk_world (fs running) (os running)
       [EKill 77 0; EKill 77 0;
        EPrint "ERROR: Server is already running (PID: 77)"]) /\
  ~ Exists is_spawn (log (snd (start_server (H := linux) false false running))).
Proof.
  destruct (C4_start_refused_when_running (H := linux) false false running 77
              (os running)
              (live_record (H := linux) running 77 _ (mk_file true "77")
                 eq_refl eq_refl eq_refl eq_refl))
    as [A [_ [_ [B _]]]].
  split.
  - destruct (B (os running) eq_refl) as [E _]. exact E.
  - apply A. reflexivity.
Defined.

(** C4 as stated fails: the check finds process 77 alive, the process exits
    before the second read, and the start, though refused, removes the
    record and reports [PID: None]. *)
Lemma C4_counterexample :
  live (H := SimRace.racing) SimRace.dying 77 (machine [77], 0%nat) /\
  fst (start_server (H := SimRace.racing) false false SimRace.dying) = Ok false /\
  pid_file (fs SimRace.dying) = record_of "77" /\
  pid_file (fs (snd (start_server (H := SimRace.racing) false false SimRace.dying)))
    = None /\
  log (snd (start_server (H := SimRace.racing) false false SimRace.dying)) =
    [EKill 77 0; EKill 77 0; EUnlink;
     EPrint "ERROR: Server is already running (PID: None)"].
Proof.
  split.
  { exact (live_record (H := SimRace.racing) SimRace.dying 77 _ (mk_file true "77")
             eq_refl eq_refl eq_refl eq_refl). }
  repeat split; reflexivity.
Qed.





(** C7 as stated fails twice: a stop on a stale record removes the record
    file, and a restart with nothing running starts the server and writes a
    record. *)
Lemma C7_counterexample :
  (fst (get_server_pid (H := linux) stale_record) = Ok None /\
   fst (stop_server (H := linux) stale_record) = Ok false /\
   pid_file (fs stale_record) = record_of "999999999" /\
   pid_file (fs (snd (stop_server (H := linux) stale_record))) = None /\
   fs (snd (stop_server (H := linux) stale_record)) <> fs stale_record) /\
  (fst (get_server_pid (H := linux) fresh) = Ok None /\
   pid_file (fs fresh) = None /\
   pid_file (fs (snd (restart_server (H := linux) fresh))) = record_of "4242" /\
   alive (os (snd (restart_server (H := linux) fresh))) = [4242] /\
   fs (snd (restart_server (H := linux) fresh)) <> fs fresh).
Proof.
  repeat split; try reflexivity; intros A; discriminate A.
Qed.

Lemma C7_nothing_to_stop_witness :
  stop_server (H := linux) stale_record =
    (Ok false,
     mk_world (mk_fs None true true) (machine [])
       [EKill 999999999 0; EUnlink; EPrint "WARNING: Server is not running"]) /\
  stop_server (H := linux) (snd (stop_server (H := linux) fresh)) =
    (Ok false,
     mk_world (fs fresh) (os fresh)
       [EPrint "WARNING: Server is not running";
        EPrint "WARNING: Server is not running"]).
Proof.
  split.
  - destruct (C7_nothing_to_stop (H := linux) stale_record
                (mk_world (mk_fs None true true) (machine [])
                   [EKill 999999999 0; EUnlink]) eq_refl)
      as [A _].
    exact A.
  - destruct (C7_nothing_to_stop (H := linux) fresh fresh eq_refl) as [_ [B _]].
    destruct (B (no_record (H := linux) fresh eq_refl)) as [_ B2]. exact B2.
Defined.


(** C9 as stated fails on Windows: the first request is already the forced
    [taskkill /F], and no graceful request is ever made. *)
Lemma C9_counterexample :
  log (snd (stop_server (H := windows) running)) =
    [EKill 77 0; EPrint "Stopping server (PID: 77)...";
     ERun ["taskkill"; "/F"; "/PID"; "77"];
     ESleep (1 # 2); EKill 77 0;
     EUnlink; EPrint "Server stopped successfully"] /\
  forced_request (ERun ["taskkill"; "/F"; "/PID"; "77"]) /\
  ~ Exists graceful_request (log (snd (stop_server (H := windows) running))).
Proof.
  split; [reflexivity |]. split; [cbn; auto |].
  intros Hex.
  repeat (apply Exists_cons in Hex; destruct Hex as [Hex | Hex];
          [cbn in Hex; first [contradiction | discriminate Hex] |]).
  inversion Hex.
Qed.

Lemma C9_escalation_order_witness :
  exists tail,
    log (snd (stop_server (H := linux) stubborn)) =
      [EKill 77 0; EPrint "Stopping server (PID: 77)..."]
      ++ EKill 77 SIGTERM :: polls 77 10
      ++ [EPrint "   Server didn't stop gracefully, forcing..."; EKill 77 SIGKILL]
      ++ tail /\
    Forall quiet tail.
Proof.
  assert (P : polled (H := linux) 77 10 (os stubborn) 10 false (os stubborn)).
  { repeat (eapply (polled_more (H := linux)); [reflexivity | reflexivity |]).
    apply polled_out. }
  destruct (C9_escalation_order (H := linux) stubborn 77 (os stubborn)
              (live_record (H := linux) stubborn 77 _ (mk_file true "77")
                 eq_refl eq_refl eq_refl eq_refl))
    as [_ [B _]].
  destruct (B (os stubborn) 10%nat false (os stubborn) eq_refl P)
    as [_ [_ [tail [E Q]]]].
  exists tail. split; [exact E | exact Q].
Defined.

Lemma C10_nonpositive_pid_is_signalled_witness :
  fst (get_server_pid (H := linux) minus_one) = Ok (Some (-1)) /\
  exists rest,
    log (snd (stop_server (H := linux) minus_one)) =
      [EKill (-1) 0; EPrint "Stopping server (PID: -1)..."; EKill (-1) SIGTERM] ++ rest.
Proof.
  destruct (C10_nonpositive_pid_is_signalled (H := linux) minus_one
              (-1) (os minus_one)
              (live_record (H := linux) minus_one (-1) _ (mk_file true "-1")
                 eq_refl eq_refl eq_refl eq_refl)
              ltac:(lia))
    as [A [_ [rest B]]].
  split; [exact A |]. exists rest. exact B.
Defined.

End Instances.

(** ** The further properties at concrete worlds *)
Section MoreInstances.
Import Sim SimX SimLogs.

Lemma get_server_pid_some_inv_witness :
  live (H := linux) running 77 (machine [77]) /\
  fs (snd (get_server_pid (H := linux) running)) = fs running /\
  log (snd (get_server_pid (H := linux) running)) = [EKill 77 0].
Proof.
  exact (get_server_pid_some_inv (H := linux) running
           (snd (get_server_pid (H := linux) running)) 77 eq_refl).
Defined.

Lemma probe_error_escapes_witness :
  get_server_pid (H := strict) huge_record =
    (Raise (mk_exn OverflowError "signed integer is greater than maximum"),
     mk_world (fs huge_record) (os huge_record) [EKill 99999999999 0]) /\
  fst (status_server (H := strict) huge_record) =
    Raise (mk_exn OverflowError "signed integer is greater than maximum").
Proof.
  destruct (probe_error_escapes (H := strict) huge_record
              (mk_file true "99999999999") 99999999999
              (mk_exn OverflowError "signed integer is greater than maximum")
              (os huge_record)
              eq_refl eq_refl eq_refl eq_refl eq_refl eq_refl)
    as [A [B _]].
  split; [exact A | rewrite B; reflexivity].
Defined.

Lemma get_server_pid_after_stale_witness :
  pid_file (fs (snd (get_server_pid (H := linux) stale_record))) = None /\
  get_server_pid (H := linux) (snd (get_server_pid (H := linux) stale_record)) =
    (Ok None, snd (get_server_pid (H := linux) stale_record)).
Proof.
  exact (get_server_pid_after_stale (H := linux) stale_record 999999999 (machine [])
           (stale_record_intro (H := linux) stale_record 999999999 _
              (mk_file true "999999999")
              (mk_exn ProcessLookupError "No such process")
              eq_refl eq_refl eq_refl eq_refl eq_refl)
           eq_refl).
Defined.

Lemma stop_server_true_means_cleared_witness :
  pid_file (fs (snd (stop_server (H := linux) running))) = None /\
  exists l,
    log (snd (stop_server (H := linux) running)) =
      l ++ [EUnlink; EPrint "Server stopped successfully"].
Proof.
  exact (stop_server_true_means_cleared (H := linux) running eq_refl).
Defined.

Lemma stop_server_interrupted_keeps_record_witness :
  stop_server (H := strict) stubborn_impatient =
    (Raise (mk_exn KeyboardInterrupt ""),
     mk_world (fs stubborn_impatient)
       (mk_sim [77] [77] [] (Ok 4242) false "" false)
       [EKill 77 0; EPrint "Stopping server (PID: 77)..."; EKill 77 SIGTERM;
        ESleep (1 # 2)]) /\
  pid_file (fs (snd (stop_server (H := strict) stubborn_impatient))) = record_of "77".
Proof.
  destruct (stop_server_interrupted_keeps_record (H := strict) stubborn_impatient
              77 (os stubborn_impatient) (os stubborn_impatient)
              (os stubborn_impatient)
              (mk_sim [77] [77] [] (Ok 4242) false "" false)
              0 (mk_exn KeyboardInterrupt "")
              (live_record (H := strict) stubborn_impatient 77 _ (mk_file true "77")
                 eq_refl eq_refl eq_refl eq_refl)
              eq_refl
              (still_there_O (H := strict) 77 (os stubborn_impatient))
              ltac:(lia) eq_refl eq_refl)
    as [A _].
  split; [exact A | rewrite A; reflexivity].
Defined.

Lemma stop_after_stop_witness :
  fst (stop_server (H := linux) (snd (stop_server (H := linux) running))) = Ok false.
Proof.
  rewrite (stop_after_stop (H := linux) running eq_refl). reflexivity.
Defined.

Lemma start_server_needs_executable_witness :
  fst (start_server (H := linux) true false unbuilt) = Ok false /\
  fs (snd (start_server (H := linux) true false unbuilt)) = fs unbuilt.
Proof.
  rewrite (start_server_needs_executable (H := linux) true unbuilt unbuilt
             eq_refl eq_refl).
  split; reflexivity.
Defined.

Lemma background_start_result_matches_record_witness :
  exists p f,
    pid_file (fs (snd (start_server (H := linux) false false fresh))) = Some f /\
    data f = str p.
Proof.
  destruct (background_start_result_matches_record (H := linux) false fresh fresh
              eq_refl (or_intror eq_refl))
    as [_ A].
  destruct (A eq_refl) as [p [f [_ [B [C _]]]]].
  exists p, f. split; [exact B | exact C].
Defined.




Lemma status_server_only_reads_witness :
  status_server (H := linux) running =
    (Ok tt,
     mk_world (fs running) (machine [77])
       [EKill 77 0; EPrint "Server Status: RUNNING"; EPrint "   PID: 77";
        EPrint "   Backend: http://localhost:8080";
        EPrint "   Logs: backend/logs/activity"]).
Proof.
  destruct (status_server_only_reads (H := linux) running) as [_ [_ A]].
  exact (A 77 (machine [77])
           (live_record (H := linux) running 77 _ (mk_file true "77")
              eq_refl eq_refl eq_refl eq_refl)).
Defined.

Lemma view_logs_not_running_witness :
  fst (view_logs (H := windows) (D := three_logs) fresh) = Ok false.
Proof.
  rewrite (view_logs_not_running (H := windows) (D := three_logs) fresh fresh eq_refl).
  reflexivity.
Defined.

Lemma latest_is_newest_witness :
  exists before best after,
    [log_a; log_b; log_c] = before ++ best :: after /\
    latest (D := three_logs) [log_a; log_b; log_c] running = (Ok best, running) /\
    (forall p, In p [log_a; log_b; log_c] ->
               (three_logs_time p <= three_logs_time best)%Q).
Proof.
  destruct (latest_is_newest (D := three_logs) three_logs_time running
              [log_a; log_b; log_c])
    as [b [x [a [E [R [A _]]]]]].
  - discriminate.
  - intros p [<- | [<- | [<- | []]]]; reflexivity.
  - exists b, x, a. split; [exact E | split; [exact R | exact A]].
Defined.

Lemma view_logs_survives_the_viewer_witness :
  fst (view_logs (H := windows) (D := no_logs) running) = Ok true.
Proof.
  exact (view_logs_survives_the_viewer (H := windows) (D := no_logs) running 77
           (machine [77]) (Some 77)
           (mk_world (fs running) (machine [77]) [EKill 77 0; EKill 77 0])
           (live_record (H := windows) running 77 _ (mk_file true "77")
              eq_refl eq_refl eq_refl eq_refl)
           eq_refl).
Defined.

Lemma view_logs_tails_newest_witness :
  exists best tail,
    In best [log_a; log_b; log_c] /\
    log (snd (view_logs (H := windows) (D := three_logs) running)) =
      [EKill 77 0; EKill 77 0;
       EPrint "Viewing server console output (PID: 77)";
       EPrint "   Press Ctrl+C to stop viewing";
       EPrint (str_mul "-" 60);
       EPrint ("Tailing: " ++ path_name best ++ String "010" "")%string;
       ERun (tail_command best)] ++ tail.
Proof.
  destruct (view_logs_tails_newest (H := windows) (D := three_logs) running 77
              (machine [77]) (machine [77]) [log_a; log_b; log_c] three_logs_time
              eq_refl
              (live_record (H := windows) running 77 _ (mk_file true "77")
                 eq_refl eq_refl eq_refl eq_refl)
              (live_record (H := windows)
                 (mk_world (fs running) (machine [77]) (log running ++ [EKill 77 0]))
                 77 _ (mk_file true "77") eq_refl eq_refl eq_refl eq_refl)
              eq_refl eq_refl)
    as [b [x [a [tail [E [_ [_ [_ [L _]]]]]]]]].
  - discriminate.
  - intros p [<- | [<- | [<- | []]]]; reflexivity.
  - exists x, tail. split; [| exact L].
    rewrite E. apply in_or_app. right. left. reflexivity.
Defined.

Lemma main_start_witness :
  main (H := linux) (D := no_logs) ["server_control.py"; "START"; "-F"; "--Go"] fresh =
    match start_server (H := linux) true true fresh with
    | (Ok _, w') => (Ok None, w')
    | (Raise e, w') => (Raise e, w')
    end.
Proof.
  exact (main_start (H := linux) (D := no_logs) "server_control.py" "START"
           ["-F"; "--Go"] fresh eq_refl).
Defined.

Lemma main_unknown_command_exits_1_witness :
  main (H := linux) (D := no_logs) ["server_control.py"; "Bogus"; "-f"] running =
    (Ok (Some 1),
     mk_world (fs running) (os running)
       [EPrint "ERROR: Unknown command: bogus";
        EPrint "   Use 'python server_control.py help' for usage information"]).
Proof.
  exact (main_unknown_command_exits_1 (H := linux) (D := no_logs)
           "server_control.py" "Bogus" ["-f"] running eq_refl eq_refl).
Defined.

Lemma main_exit_code_means_unknown_witness :
  fs (snd (main (H := linux) (D := no_logs) ["server_control.py"; "Bogus"] running))
    = fs running.
Proof.
  destruct (main_exit_code_means_unknown (H := linux) (D := no_logs)
              ["server_control.py"; "Bogus"] running 1 eq_refl)
    as [_ [A _]].
  exact A.
Defined.

Lemma main_options_only_for_start_witness :
  main (H := linux) (D := no_logs)
    ["server_control.py"; "restart"; "--foreground"] running =
  main (H := linux) (D := no_logs) ["server_control.py"; "restart"] running.
Proof.
  apply (main_options_only_for_start (H := linux) (D := no_logs)).
  discriminate.
Defined.

Lemma main_help_witness :
  main (H := linux) (D := no_logs) ["server_control.py"; "--HELP"; "now"] running =
    (Ok None, mk_world (fs running) (os running) [EPrint HELP_TEXT]).
Proof.
  exact (main_help (H := linux) (D := no_logs) "server_control.py" "--HELP" ["now"]
           running eq_refl).
Defined.

End MoreInstances.
